(** * Dimension Data load-balancer driver

    A shallow embedding of [libcloud/loadbalancer/drivers/dimensiondata.py]
    (class [DimensionDataLBDriver]) and the properties of its translation
    tables, payload builders, response parsers and workflows.

    Conventions of the embedding.
    - Python values that flow through the driver untyped (ids, ports, limits,
      element texts) are [pyval]s; nothing is converted unless the source
      converts it.
    - A method that talks to the connection is a computation in [M]: it reads
      the transport, appends every request it makes to a log and either
      returns a value or raises.
    - Three names that method bodies read from module scope are bound by
      none of the module's imports (lines 16-28): [ET],
      [_ALGORITHM_TO_VALUE_MAP] and [false].  Each is looked up in [globals]
      when the line that reads it runs; [module_globals] is the scope the
      module itself provides, in which all three are unbound.
    - Where [ET] is bound it is the ElementTree module.  [ET.tostring] runs
      before the connection is called and refuses a tree it cannot write,
      so a request is logged only for a tree that was rendered; the body of
      a request is represented by that tree. *)

From Stdlib Require Import ZArith List String Ascii Bool Lia.
From Stdlib Require Import Decimal DecimalString DecimalNat DecimalFacts.
Import ListNotations.
Set Warnings "-register-all,-abstract-large-number".
Local Open Scope string_scope.
Local Open Scope Z_scope.

(** ** Python values and exceptions *)

Inductive pyval : Type :=
| PNone
| PBool (b : bool)
| PInt (z : Z)
| PStr (s : string).

(** [a == b] on the values above ([True == 1], [None == False] is false). *)
Definition py_eq (a b : pyval) : bool :=
  match a, b with
  | PNone, PNone => true
  | PBool x, PBool y => Bool.eqb x y
  | PInt x, PInt y => Z.eqb x y
  | PBool x, PInt y => Z.eqb (if x then 1 else 0) y
  | PInt x, PBool y => Z.eqb x (if y then 1 else 0)
  | PStr x, PStr y => String.eqb x y
  | _, _ => false
  end.

(** Truth value of an object, as [if v:] and [v or w] test it. *)
Definition truthy (v : pyval) : bool :=
  match v with
  | PNone => false
  | PBool b => b
  | PInt z => negb (Z.eqb z 0)
  | PStr s => negb (String.eqb s "")
  end.

Definition py_or (a b : pyval) : pyval := if truthy a then a else b.

Definition is_str (v : pyval) : bool :=
  match v with PStr _ => true | _ => false end.

Inductive exn : Type :=
| NameError (name : string)
| AttributeError
| KeyError (key : string)
| TypeError
| ValueError
| OtherError (msg : string).

Inductive result (A : Type) : Type :=
| Return (a : A)
| Raise (e : exn).
Arguments Return {A} a.
Arguments Raise {A} e.

Definition returns {A} (r : result A) : bool :=
  match r with Return _ => true | Raise _ => false end.

(** ** Dictionaries

    A dict keeps its keys in insertion order; assigning to a key that is
    present replaces its value in place. *)

Class PyKey (K : Type) := key_eqb : K -> K -> bool.

#[export] Instance string_key : PyKey string := String.eqb.

Definition dict (K V : Type) : Type := list (K * V).

Fixpoint dict_get {K V} `{PyKey K} (d : dict K V) (k : K) : option V :=
  match d with
  | [] => None
  | (k', v) :: rest => if key_eqb k' k then Some v else dict_get rest k
  end.

Fixpoint dict_set {K V} `{PyKey K} (d : dict K V) (k : K) (v : V) : dict K V :=
  match d with
  | [] => [(k, v)]
  | (k', v') :: rest =>
      if key_eqb k' k then (k', v) :: rest else (k', v') :: dict_set rest k v
  end.

(** [dict(pairs)] *)
Definition dict_of_pairs {K V} `{PyKey K} (pairs : list (K * V)) : dict K V :=
  fold_left (fun d kv => dict_set d (fst kv) (snd kv)) pairs [].

(** [d.get(k, default)] for a dict with string keys and any key object. *)
Definition py_get {V} (d : dict string V) (k : pyval) (default : V) : V :=
  match k with
  | PStr s => match dict_get d s with Some v => v | None => default end
  | _ => default
  end.

(** [d[k]] *)
Definition subscript {V} (d : dict string V) (k : string) : result V :=
  match dict_get d k with
  | Some v => Return v
  | None => Raise (KeyError k)
  end.

(** Modelled from the spec: [reverse_dict] of libcloud.utils.misc, which is
    not part of this file; it yields the dict of the swapped items. *)
Definition reverse_dict {K V} `{PyKey V} (d : dict K V) : dict V K :=
  dict_of_pairs (map (fun kv => (snd kv, fst kv)) d).

(** ** [int(x)]

    On a text, [int] first maps the characters outside ASCII through the
    interpreter's Unicode tables (white space to a blank, decimal digits to
    ASCII digits) and then reads the ASCII text.  The reading of ASCII text
    is modelled here.  What [int] makes of a text that is not pure ASCII is
    taken from a function [unicode_int], which stands for those tables.
    A numeral of more than 640 digits is refused when it has more digits
    than the interpreter's limit [int_max_str_digits] (4300 unless it was
    changed); the limit 0 is no limit, and an interpreter that predates the
    limit behaves like one with the limit 0. *)

(** The value of an ASCII digit. *)
Definition digit_of (c : ascii) : option Z :=
  let n := Z.of_N (N_of_ascii c) in
  if (48 <=? n) && (n <=? 57) then Some (n - 48) else None.

(** The white space skipped around an ASCII numeral: TAB, LF, VT, FF, CR and
    the blank. *)
Definition is_space (c : ascii) : bool :=
  let n := Z.of_N (N_of_ascii c) in
  ((9 <=? n) && (n <=? 13)) || (n =? 32).

Definition is_underscore (c : ascii) : bool := Ascii.eqb c "_"%char.

(** Digits with single underscores between them; [prev] tells whether the
    character before was a digit. *)
Fixpoint digits_acc (acc : Z) (prev : bool) (cs : list ascii) : option Z :=
  match cs with
  | [] => if prev then Some acc else None
  | c :: rest =>
      match digit_of c with
      | Some d => digits_acc (10 * acc + d) true rest
      | None =>
          if is_underscore c && prev then digits_acc acc false rest else None
      end
  end.

Fixpoint lstrip (cs : list ascii) : list ascii :=
  match cs with
  | c :: rest => if is_space c then lstrip rest else cs
  | [] => []
  end.

Definition strip (cs : list ascii) : list ascii :=
  List.rev (lstrip (List.rev (lstrip cs))).

(** A text all of whose characters are ASCII. *)
Definition is_ascii (s : string) : bool :=
  forallb (fun c => Z.of_N (N_of_ascii c) <? 128) (list_ascii_of_string s).

(** The number of digits in a text. *)
Definition digit_count (cs : list ascii) : nat :=
  List.length
    (filter (fun c => match digit_of c with Some _ => true | None => false end)
            cs).

(** A numeral with more digits than the limit allows. *)
Definition too_long (max_str_digits : Z) (cs : list ascii) : bool :=
  let n := Z.of_nat (digit_count cs) in
  (640 <? n) && (0 <? max_str_digits) && (max_str_digits <? n).

(** The integer an ASCII text denotes for [int], if any. *)
Definition ascii_int (max_str_digits : Z) (s : string) : option Z :=
  let cs := strip (list_ascii_of_string s) in
  if too_long max_str_digits cs then None
  else
    match cs with
    | [] => None
    | c :: rest =>
        if Ascii.eqb c "+"%char then digits_acc 0 false rest
        else if Ascii.eqb c "-"%char
             then option_map Z.opp (digits_acc 0 false rest)
             else digits_acc 0 false (c :: rest)
    end.

(** The integer a text denotes for [int(s)], if any. *)
Definition int_of_string (max_str_digits : Z)
  (unicode_int : string -> option Z) (s : string) : option Z :=
  if is_ascii s then ascii_int max_str_digits s else unicode_int s.

Definition py_int (max_str_digits : Z) (unicode_int : string -> option Z)
  (v : pyval) : result Z :=
  match v with
  | PNone => Raise TypeError
  | PBool b => Return (if b then 1 else 0)
  | PInt z => Return z
  | PStr s =>
      match int_of_string max_str_digits unicode_int s with
      | Some z => Return z
      | None => Raise ValueError
      end
  end.

(** ['%s' % v]: the text a value is formatted to. *)
Definition py_str (v : pyval) : string :=
  match v with
  | PNone => "None"
  | PBool true => "True"
  | PBool false => "False"
  | PInt z => NilZero.string_of_int (Z.to_int z)
  | PStr s => s
  end.

(** ** XML trees (ElementTree) *)

Inductive element : Type :=
| Element (tag : string) (attrib : dict string pyval) (text : pyval)
          (children : list element).

Definition tag (e : element) : string :=
  match e with Element t _ _ _ => t end.
Definition attrib (e : element) : dict string pyval :=
  match e with Element _ a _ _ => a end.
Definition text (e : element) : pyval :=
  match e with Element _ _ x _ => x end.
Definition children (e : element) : list element :=
  match e with Element _ _ _ c => c end.

(** The object the name [ET] stands for where it is bound: the ElementTree
    module. *)
Inductive xml_module : Type :=
| ElementTree.

(** [ET.Element(tag, attrib)] *)
Definition ET_Element (ET : xml_module) (t : string)
  (a : dict string pyval) : element :=
  Element t a PNone [].

(** [ET.SubElement(parent, tag).text = v] *)
Definition SubElement_text (ET : xml_module) (parent : element) (t : string)
  (v : pyval) : element :=
  Element (tag parent) (attrib parent) (text parent)
          (children parent ++ [Element t [] v []]).

(** A text [ET.tostring] can deal with: a string, or a falsy object, which
    it skips. *)
Definition text_ok (x : pyval) : bool := is_str x || negb (truthy x).

(** A tree [ET.tostring] can write: every attribute value is a string and
    every text is a string or falsy, all the way down. *)
Fixpoint renderable (e : element) : bool :=
  match e with
  | Element _ a x cs =>
      forallb (fun kv => is_str (snd kv)) a
      && text_ok x
      && forallb renderable cs
  end.

(** [ET.tostring(e)]: TypeError on a tree it cannot write; the document it
    returns otherwise is represented by the tree. *)
Definition ET_tostring (ET : xml_module) (e : element) : result element :=
  if renderable e then Return e else Raise TypeError.

(** [e.get(key)] *)
Definition elem_get (e : element) (key : string) : pyval :=
  match dict_get (attrib e) key with Some v => v | None => PNone end.

(** [e.findall(path)], [e.find(path)] and [e.findtext(path)] for a path of
    one step: the children carrying that tag, in document order. *)
Definition elem_findall (e : element) (path : string) : list element :=
  filter (fun c => String.eqb (tag c) path) (children e).

Definition elem_find (e : element) (path : string) : option element :=
  hd_error (elem_findall e path).

Definition elem_findtext (e : element) (path : string) : pyval :=
  match elem_find e path with
  | Some c => py_or (text c) (PStr "")
  | None => PNone
  end.

(** Modelled from the spec: the namespace-qualified helpers [fixxpath],
    [findall] and [findtext] of libcloud.utils.xml, which are not part of
    this file (one-step paths, as every call here uses them). *)
Definition fixxpath (xpath namespace : string) : string :=
  if String.eqb namespace "" then xpath
  else "{" ++ namespace ++ "}" ++ xpath.

Definition findall (e : element) (xpath namespace : string) : list element :=
  elem_findall e (fixxpath xpath namespace).

Definition findtext (e : element) (xpath namespace : string) : pyval :=
  elem_findtext e (fixxpath xpath namespace).

(** [info.name] and [info.value], read as Python attributes of an element
    that [findall] returns.  An element has the attributes tag, text, tail
    and attrib and takes no others, so either access raises. *)
Definition info_name (info : element) : result pyval := Raise AttributeError.
Definition info_value (info : element) : result pyval := Raise AttributeError.

(** ** The connection *)

Record request : Type := mkRequest {
  path : string;
  method : string;
  data : option element
}.

(** What the connection answers to a request, given the requests made so
    far: the parsed document ([.object]) or an exception. *)
Definition transport : Type := list request -> request -> result element.

Definition M (A : Type) : Type :=
  transport -> list request -> result A * list request.

Definition ret {A} (a : A) : M A := fun _ log => (Return a, log).

Definition raise {A} (e : exn) : M A := fun _ log => (Raise e, log).

Definition bind {A B} (m : M A) (k : A -> M B) : M B :=
  fun net log =>
    match m net log with
    | (Return a, log') => k a net log'
    | (Raise e, log') => (Raise e, log')
    end.

Notation "x <- m ;; k" := (bind m (fun x => k))
  (at level 61, m at next level, right associativity).

Definition lift {A} (r : result A) : M A := fun _ log => (r, log).

(** [for x in xs: body(x)] *)
Fixpoint for_each {A} (xs : list A) (body : A -> M unit) : M unit :=
  match xs with
  | [] => ret tt
  | x :: rest => _ <- body x ;; for_each rest body
  end.

(** [for x in xs: if ...: return ...] followed by [return after]; [body]
    tells whether the iteration at [x] returns, and what, or raises. *)
Fixpoint for_return {A B} (xs : list A) (body : A -> result (option B))
  (after : B) : result B :=
  match xs with
  | [] => Return after
  | x :: rest =>
      match body x with
      | Raise e => Raise e
      | Return (Some b) => Return b
      | Return None => for_return rest body after
      end
  end.

(** [if info.name == key: return info.value] *)
Definition return_if_named (key : string) (info : element)
  : result (option pyval) :=
  match info_name info with
  | Raise e => Raise e
  | Return name =>
      if py_eq name (PStr key)
      then match info_value info with
           | Raise e => Raise e
           | Return value => Return (Some value)
           end
      else Return None
  end.

(** [self.connection.request_with_orgId_api_2(path, method=..., data=...)
    .object] *)
Definition request_with_orgId_api_2 (p m : string) (d : option element)
  : M element :=
  fun net log =>
    let req := mkRequest p m d in (net log req, (log ++ [req])%list).

(** ** Neutral types the driver exchanges with its caller *)

(** Modelled from the spec: the enumerations [Algorithm] and [State] of
    libcloud.loadbalancer, whose constants are defined outside this file. *)
Inductive Algorithm : Type :=
| RANDOM
| ROUND_ROBIN
| LEAST_CONNECTIONS
| WEIGHTED_ROUND_ROBIN
| WEIGHTED_LEAST_CONNECTIONS
| SHORTEST_RESPONSE
| PERSISTENT_IP.

Inductive State : Type :=
| RUNNING
| PENDING
| UNKNOWN
| ERROR
| DELETED.

Definition Algorithm_eq_dec (a b : Algorithm) : {a = b} + {a <> b}.
Proof. decide equality. Defined.

#[export] Instance Algorithm_key : PyKey Algorithm :=
  fun a b => if Algorithm_eq_dec a b then true else false.

Module LoadBalancer.
Record t : Type := mk {
  id : pyval;
  name : pyval;
  state : State;
  ip : pyval;
  port : pyval;
  extra : dict string pyval
}.
End LoadBalancer.

(** The attributes of a member object that the driver reads. *)
Module Member.
Record t : Type := mk {
  id : pyval;
  name : pyval;
  ip : pyval;
  port : pyval;
  description : pyval
}.
End Member.

Module DimensionDataPoolMember.
Record t : Type := mk {
  id : pyval;
  name : pyval;
  status : pyval;
  ip_address : pyval;
  port : pyval
}.
End DimensionDataPoolMember.

Module DimensionDataPool.
Record t : Type := mk {
  id : pyval;
  name : pyval;
  status : pyval;
  description : pyval
}.
End DimensionDataPool.

(** The keyword arguments of a [Member(...)] construction; the class itself
    is defined outside this file. *)
Module MemberInit.
Record t : Type := mk {
  id : pyval;
  ip : pyval;
  port : pyval;
  balancer : LoadBalancer.t;
  extra : pyval
}.
End MemberInit.

(** ** Names resolved in module scope

    The methods that build a payload read [ET], [create_balancer] reads
    [_ALGORITHM_TO_VALUE_MAP] and [balancer_attach_member] reads [false], all
    as plain names, which Python looks up in the module's namespace when the
    line runs. *)
Record globals : Type := mkGlobals {
  g_ALGORITHM_TO_VALUE_MAP : option (dict Algorithm string);
  g_false : option pyval;
  g_ET : option xml_module
}.

Definition load_global {A} (name : string) (binding : option A) : M A :=
  match binding with
  | Some v => ret v
  | None => raise (NameError name)
  end.

(** The module binds none of them: its imports (lines 16-28) and its one
    class define no such name, and a class attribute is not in scope by its
    bare name inside a method. *)
Definition module_globals : globals := mkGlobals None None None.

(** ** The class attributes: translation tables *)

Definition _VALUE_TO_ALGORITHM_MAP : dict string Algorithm :=
  dict_of_pairs
    [ ("ROUND_ROBIN", ROUND_ROBIN);
      ("LEAST_CONNECTIONS", LEAST_CONNECTIONS);
      ("SHORTEST_RESPONSE", SHORTEST_RESPONSE);
      ("PERSISTENT_IP", PERSISTENT_IP) ].

Definition _ALGORITHM_TO_VALUE_MAP : dict Algorithm string :=
  reverse_dict _VALUE_TO_ALGORITHM_MAP.

Definition _VALUE_TO_STATE_MAP : dict string State :=
  dict_of_pairs
    [ ("NORMAL", RUNNING);
      ("PENDING_ADD", PENDING);
      ("PENDING_CHANGE", PENDING);
      ("PENDING_DELETE", PENDING);
      ("FAILED_ADD", ERROR);
      ("FAILED_CHANGE", ERROR);
      ("FAILED_DELETE", ERROR);
      ("REQUIRES_SUPPORT", ERROR) ].

(** A scope in which the three names stand for the class attribute, for the
    constant [False] and for the ElementTree module, for comparison with
    [module_globals]. *)
Definition intended_globals : globals :=
  mkGlobals (Some _ALGORITHM_TO_VALUE_MAP) (Some (PBool false))
            (Some ElementTree).

(** ** Documents and transports used in examples *)

Definition info_entry (namespace name value : string) : element :=
  Element (fixxpath "info" namespace)
          [("name", PStr name); ("value", PStr value)] PNone [].

Definition info_response (namespace : string)
  (entries : list (string * string)) : element :=
  Element (fixxpath "response" namespace) [] PNone
          (map (fun nv => info_entry namespace (fst nv) (snd nv)) entries).

(** The transport that answers every request with the same document. *)
Definition answering (document : element) : transport :=
  fun _ _ => Return document.

(** The transport that fails on every request. *)
Definition failing (e : exn) : transport := fun _ _ => Raise e.

Definition types_urn : string := "urn:didata.com:api:cloud:types".
Definition server_ns : string := "http://oec.api.opsource.net/schemas/server".

(** The examples decode ASCII texts only, for which [int] does not consult
    the Unicode tables; this stand-in for them accepts nothing. *)
Definition ascii_only : string -> option Z := fun _ => None.

(** The limit on the digits of a numeral that an interpreter starts with. *)
Definition default_max_str_digits : Z := 4300.

Definition web1 : Member.t :=
  Member.mk (PStr "PM1") (PStr "web1") (PStr "10.0.0.11") (PStr "8080")
            (PStr "first web server").

Definition web2 : Member.t :=
  Member.mk (PStr "PM2") (PStr "web2") (PStr "10.0.0.12") (PStr "8080")
            (PStr "second web server").

Definition lb1 : LoadBalancer.t :=
  LoadBalancer.mk (PStr "LB1") (PStr "web") RUNNING (PStr "165.180.12.22")
                  (PStr "80")
                  [("pool_id", PStr "P1"); ("network_domain_id", PStr "ND1")].

(** A virtualListener element in state [code]. *)
Definition listener_doc (code : string) : element :=
  Element (fixxpath "virtualListener" types_urn) [("id", PStr "LB1")] PNone
    [ Element (fixxpath "networkDomainId" types_urn) [] (PStr "ND1") [];
      Element (fixxpath "name" types_urn) [] (PStr "web") [];
      Element (fixxpath "state" types_urn) [] (PStr code) [];
      Element (fixxpath "listenerIpAddress" types_urn) []
              (PStr "165.180.12.22") [];
      Element (fixxpath "port" types_urn) [] (PStr "80") [];
      Element (fixxpath "pool" types_urn) [("id", PStr "P1")] PNone [] ].

Definition node_elem : element :=
  Element (fixxpath "node" types_urn)
          [("id", PStr "N1"); ("name", PStr "web1");
           ("ipAddress", PStr "10.0.0.11")] PNone [].

Definition port_elem (port_text : string) : element :=
  Element (fixxpath "port" types_urn) [] (PStr port_text) [].

(** A poolMember element whose port child holds [port_text]. *)
Definition pool_member_doc (port_text : string) : element :=
  Element (fixxpath "poolMember" types_urn) [("id", PStr "PM1")] PNone
    [ node_elem;
      port_elem port_text;
      Element (fixxpath "state" types_urn) [] (PStr "NORMAL") [] ].

(** A collection of two listeners with a foreign element between them. *)
Definition listeners_doc : element :=
  Element (fixxpath "virtualListeners" types_urn) [] PNone
    [ listener_doc "NORMAL";
      Element (fixxpath "pageInfo" types_urn) [] PNone [];
      listener_doc "FAILED_ADD" ].

(** A virtualListener element without a pool child. *)
Definition bare_listener : element :=
  Element (fixxpath "virtualListener" types_urn) [("id", PStr "LB2")] PNone
    [ Element (fixxpath "name" types_urn) [] (PStr "spare") [] ].

Definition broken_listeners_doc : element :=
  Element (fixxpath "virtualListeners" types_urn) [] PNone
    [ listener_doc "NORMAL"; bare_listener; listener_doc "NORMAL" ].

(** A collection of pool members with the given port texts. *)
Definition members_doc (port_texts : list string) : element :=
  Element (fixxpath "poolMembers" types_urn) [] PNone
    (map pool_member_doc port_texts).

(** A poolMember element without a node child. *)
Definition nodeless_member : element :=
  Element (fixxpath "poolMember" types_urn) [("id", PStr "PM9")] PNone
    [ port_elem "8080" ].

Definition pools_doc : element :=
  Element (fixxpath "pools" types_urn) [] PNone
    [ Element (fixxpath "pool" types_urn) [("id", PStr "P1")] PNone
        [ Element (fixxpath "name" types_urn) [] (PStr "web") [];
          Element (fixxpath "state" types_urn) [] (PStr "PENDING_ADD") [] ];
      Element (fixxpath "pool" types_urn) [("id", PStr "P2")] PNone [] ].

(** A balancer that was not decoded from a listener. *)
Definition lb_without_extra : LoadBalancer.t :=
  LoadBalancer.mk (PStr "LB3") (PStr "bare") UNKNOWN PNone PNone [].

Definition endpoints : dict string string :=
  [ ("dd-na", "api-na.dimensiondata.com");
    ("dd-eu", "api-eu.dimensiondata.com") ].

(** ** The driver *)

Section Driver.

(** The two namespace constants imported from libcloud.common.dimensiondata,
    whose values are fixed outside this file. *)
Variables TYPES_URN SERVER_NS : string.

(** The interpreter's limit on the digits of a numeral, and what [int]
    makes of a text that is not pure ASCII, which depends on the Unicode
    tables of the interpreter. *)
Variable int_max_str_digits : Z.
Variable unicode_int : string -> option Z.

Set Default Proof Using "Type".

Definition list_protocols : list string := ["http"; "https"; "tcp"; "udp"].

Definition ex_create_pool_member (g : globals) (pool_id node_id port : pyval)
  : M pyval :=
  ET <- load_global "ET" (g_ET g) ;;
  let create_pool_m :=
    ET_Element ET "addPoolMember" [("xmlns", PStr SERVER_NS)] in
  let create_pool_m := SubElement_text ET create_pool_m "poolId" pool_id in
  let create_pool_m := SubElement_text ET create_pool_m "nodeId" node_id in
  let create_pool_m := SubElement_text ET create_pool_m "port" port in
  data <- lift (ET_tostring ET create_pool_m) ;;
  response <- request_with_orgId_api_2 "networkDomainVip/addPoolMember" "POST"
                (Some data) ;;
  lift (for_return (findall response "info" TYPES_URN)
          (return_if_named "poolMemberId") (PBool false)).

Definition ex_create_node (g : globals)
  (network_domain_id name ip ex_description : pyval)
  (connection_limit connection_rate_limit : pyval) : M pyval :=
  ET <- load_global "ET" (g_ET g) ;;
  let create_node_elm :=
    ET_Element ET "createNode" [("xmlns", PStr SERVER_NS)] in
  let create_node_elm :=
    SubElement_text ET create_node_elm "networkDomainId" network_domain_id in
  let create_node_elm :=
    SubElement_text ET create_node_elm "description" ex_description in
  let create_node_elm := SubElement_text ET create_node_elm "name" name in
  let create_node_elm := SubElement_text ET create_node_elm "ipv4Address" ip in
  let create_node_elm :=
    SubElement_text ET create_node_elm "connectionLimit" connection_limit in
  let create_node_elm :=
    SubElement_text ET create_node_elm "connectionRateLimit"
                    connection_rate_limit in
  data <- lift (ET_tostring ET create_node_elm) ;;
  response <- request_with_orgId_api_2 "networkDomainVip/createNode" "POST"
                (Some data) ;;
  lift (for_return (findall response "info" TYPES_URN)
          (return_if_named "nodeId") PNone).

Definition ex_create_pool (g : globals)
  (network_domain_id name balancer_method ex_description : pyval)
  (service_down_action slow_ramp_time : pyval) : M pyval :=
  ET <- load_global "ET" (g_ET g) ;;
  let create_node_elm :=
    ET_Element ET "createPool" [("xmlns", PStr SERVER_NS)] in
  let create_node_elm :=
    SubElement_text ET create_node_elm "networkDomainId" network_domain_id in
  let create_node_elm :=
    SubElement_text ET create_node_elm "description" ex_description in
  let create_node_elm := SubElement_text ET create_node_elm "name" name in
  let create_node_elm :=
    SubElement_text ET create_node_elm "loadBalancerMethod" balancer_method in
  let create_node_elm :=
    SubElement_text ET create_node_elm "serviceDownAction"
                    service_down_action in
  let create_node_elm :=
    SubElement_text ET create_node_elm "slowRampTime" slow_ramp_time in
  data <- lift (ET_tostring ET create_node_elm) ;;
  response <- request_with_orgId_api_2 "networkDomainVip/createPool" "POST"
                (Some data) ;;
  lift (for_return (findall response "info" TYPES_URN)
          (return_if_named "poolId") (PBool false)).

Definition ex_create_virtual_listener (g : globals)
  (network_domain_id name ex_description port : pyval)
  (listener_type protocol connection_limit connection_rate_limit
     source_port_preservation : pyval) : M pyval :=
  ET <- load_global "ET" (g_ET g) ;;
  let create_node_elm :=
    ET_Element ET "createVirtualListener" [("xmlns", PStr SERVER_NS)] in
  let create_node_elm :=
    SubElement_text ET create_node_elm "networkDomainId" network_domain_id in
  let create_node_elm :=
    SubElement_text ET create_node_elm "description" ex_description in
  let create_node_elm := SubElement_text ET create_node_elm "name" name in
  let create_node_elm := SubElement_text ET create_node_elm "port" port in
  let create_node_elm :=
    SubElement_text ET create_node_elm "type" listener_type in
  let create_node_elm :=
    SubElement_text ET create_node_elm "connectionLimit" connection_limit in
  let create_node_elm :=
    SubElement_text ET create_node_elm "connectionRateLimit"
                    connection_rate_limit in
  let create_node_elm :=
    SubElement_text ET create_node_elm "sourcePortPreservation"
                    source_port_preservation in
  data <- lift (ET_tostring ET create_node_elm) ;;
  response <- request_with_orgId_api_2 "networkDomainVip/createVirtualListener"
                "POST" (Some data) ;;
  lift (for_return (findall response "info" TYPES_URN)
          (return_if_named "poolId") (PBool false)).

(** The defaults of the keyword parameters. *)
Definition default_connection_limit : pyval := PInt 25000.
Definition default_connection_rate_limit : pyval := PInt 2000.
Definition default_service_down_action : pyval := PStr "NONE".
Definition default_slow_ramp_time : pyval := PInt 30.
Definition default_listener_type : pyval := PStr "STANDARD".
Definition default_protocol : pyval := PStr "ANY".
Definition default_source_port_preservation : pyval := PStr "PRESERVE".

(** [_ALGORITHM_TO_VALUE_MAP.get(algorithm)] *)
Definition algorithm_code (m : dict Algorithm string) (algorithm : Algorithm)
  : pyval :=
  match dict_get m algorithm with
  | Some code => PStr code
  | None => PNone
  end.

Definition create_balancer (g : globals) (name port protocol : pyval)
  (algorithm : Algorithm) (members : list Member.t) : M pyval :=
  let network_domain_id := PNone in
  table <- load_global "_ALGORITHM_TO_VALUE_MAP" (g_ALGORITHM_TO_VALUE_MAP g) ;;
  pool_id <- ex_create_pool g network_domain_id name
               (algorithm_code table algorithm) PNone
               default_service_down_action default_slow_ramp_time ;;
  _ <- for_each members (fun member =>
         node_id <- ex_create_node g network_domain_id (Member.name member)
                      (Member.ip member) PNone
                      default_connection_limit default_connection_rate_limit ;;
         _ <- ex_create_pool_member g pool_id node_id port ;;
         ret tt) ;;
  _ <- ex_create_virtual_listener g network_domain_id name PNone port
         default_listener_type default_protocol default_connection_limit
         default_connection_rate_limit default_source_port_preservation ;;
  ret (PBool true).

Definition balancer_attach_member (g : globals) (balancer : LoadBalancer.t)
  (member : Member.t) : M pyval :=
  network_domain_id <-
    lift (subscript (LoadBalancer.extra balancer) "network_domain_id") ;;
  nodeId <- ex_create_node g network_domain_id (Member.name member)
              (Member.ip member) (Member.description member)
              default_connection_limit default_connection_rate_limit ;;
  false_ <- load_global "false" (g_false g) ;;
  if py_eq nodeId false_ then ret (PBool false)
  else
    pool_id <- lift (subscript (LoadBalancer.extra balancer) "pool_id") ;;
    poolMemberId <- ex_create_pool_member g pool_id nodeId
                      (Member.port member) ;;
    ret (PBool true).

Definition balancer_detach_member (g : globals) (balancer : LoadBalancer.t)
  (member : Member.t) : M pyval :=
  ET <- load_global "ET" (g_ET g) ;;
  let create_pool_m :=
    ET_Element ET "removePoolMember"
      [("xmlns", PStr SERVER_NS); ("id", Member.id member)] in
  data <- lift (ET_tostring ET create_pool_m) ;;
  _ <- request_with_orgId_api_2 "networkDomainVip/removePoolMember" "POST"
         (Some data) ;;
  ret (PBool true).

Definition destroy_balancer (g : globals) (balancer : LoadBalancer.t)
  : M pyval :=
  ET <- load_global "ET" (g_ET g) ;;
  let delete_listener :=
    ET_Element ET "deleteVirtualListener"
      [("xmlns", PStr SERVER_NS); ("id", LoadBalancer.id balancer)] in
  data <- lift (ET_tostring ET delete_listener) ;;
  _ <- request_with_orgId_api_2 "networkDomainVip/deleteVirtualListener" "POST"
         (Some data) ;;
  ret (PBool true).

(** *** Decoding entities *)

(** [_to_balancer]; the [driver] field, a reference back to the driver
    object, is left out of the record. *)
Definition _to_balancer (element : element) : result LoadBalancer.t :=
  let ipaddress := findtext element "listenerIpAddress" TYPES_URN in
  let name := findtext element "name" TYPES_URN in
  let port := findtext element "port" TYPES_URN in
  let extra : dict string pyval := [] in
  match elem_find element (fixxpath "pool" TYPES_URN) with
  | None => Raise AttributeError
  | Some pool =>
      let extra := dict_set extra "pool_id" (elem_get pool "id") in
      let extra :=
        dict_set extra "network_domain_id"
                 (findtext element "networkDomainId" TYPES_URN) in
      Return (LoadBalancer.mk
                (elem_get element "id")
                name
                (py_get _VALUE_TO_STATE_MAP
                        (findtext element "state" TYPES_URN) UNKNOWN)
                ipaddress
                port
                extra)
  end.

Fixpoint map_result {A B} (f : A -> result B) (xs : list A)
  : result (list B) :=
  match xs with
  | [] => Return []
  | x :: rest =>
      match f x with
      | Raise e => Raise e
      | Return b =>
          match map_result f rest with
          | Raise e => Raise e
          | Return bs => Return (b :: bs)
          end
      end
  end.

Definition _to_balancers (object : element) : result (list LoadBalancer.t) :=
  map_result _to_balancer
             (elem_findall object (fixxpath "virtualListener" TYPES_URN)).

Definition _to_member (element : element)
  : result DimensionDataPoolMember.t :=
  let id := elem_get element "id" in
  match elem_find element (fixxpath "node" TYPES_URN) with
  | None => Raise AttributeError
  | Some node =>
      let name := elem_get node "name" in
      let status := findtext element "state" TYPES_URN in
      let ip_address := elem_get node "ipAddress" in
      match py_int int_max_str_digits unicode_int
                   (findtext element "port" TYPES_URN) with
      | Raise e => Raise e
      | Return port =>
          Return (DimensionDataPoolMember.mk id name status ip_address
                                             (PInt port))
      end
  end.

Definition _to_members (object : element)
  : result (list DimensionDataPoolMember.t) :=
  map_result _to_member (elem_findall object (fixxpath "poolMember" TYPES_URN)).

Definition _to_pool (element : element) : DimensionDataPool.t :=
  DimensionDataPool.mk
    (elem_get element "id")
    (findtext element "name" TYPES_URN)
    (findtext element "state" TYPES_URN)
    (findtext element "description" TYPES_URN).

Definition _to_pools (object : element) : list DimensionDataPool.t :=
  map _to_pool (elem_findall object (fixxpath "pool" TYPES_URN)).

(** *** Reading operations

    A call that passes only the path is a GET without a body. *)

Definition list_balancers : M (list LoadBalancer.t) :=
  object <- request_with_orgId_api_2 "networkDomainVip/virtualListener" "GET"
              None ;;
  lift (_to_balancers object).

Definition get_balancer (balancer_id : pyval) : M LoadBalancer.t :=
  bal <- request_with_orgId_api_2
           ("networkDomainVip/virtualListener/" ++ py_str balancer_id) "GET"
           None ;;
  lift (_to_balancer bal).

Definition ex_get_pools : M (list DimensionDataPool.t) :=
  pools <- request_with_orgId_api_2 "networkDomainVip/pool" "GET" None ;;
  ret (_to_pools pools).

Definition ex_get_pool (pool_id : pyval) : M DimensionDataPool.t :=
  pool <- request_with_orgId_api_2
            ("networkDomainVip/pool/" ++ py_str pool_id) "GET" None ;;
  ret (_to_pool pool).

Definition ex_get_pool_members (pool_id : pyval)
  : M (list DimensionDataPoolMember.t) :=
  members <- request_with_orgId_api_2
               ("networkDomainVip/poolMember?poolId=" ++ py_str pool_id) "GET"
               None ;;
  lift (_to_members members).

Definition ex_get_pool_member (pool_member_id : pyval)
  : M DimensionDataPoolMember.t :=
  member <- request_with_orgId_api_2
              ("networkDomainVip/poolMember/" ++ py_str pool_member_id) "GET"
              None ;;
  lift (_to_member member).

Definition balancer_list_members (balancer : LoadBalancer.t)
  : M (list MemberInit.t) :=
  pool_id <- lift (subscript (LoadBalancer.extra balancer) "pool_id") ;;
  pool_members <- ex_get_pool_members pool_id ;;
  ret (map (fun pool_member =>
              MemberInit.mk
                (DimensionDataPoolMember.id pool_member)
                (DimensionDataPoolMember.ip_address pool_member)
                (DimensionDataPoolMember.port pool_member)
                balancer
                PNone)
           pool_members).

(** *** Construction

    [__init__] up to its call of the base constructor: the region check and
    the assignment of [selected_region].  [API_ENDPOINTS] is the table
    imported from libcloud.common.dimensiondata; [object] is the type of
    the objects it and the keyword arguments hold. *)
Definition __init__ {object : Type} (API_ENDPOINTS : dict string object)
  (region : string) : result object :=
  match dict_get API_ENDPOINTS region with
  | None => Raise ValueError
  | Some selected_region => Return selected_region
  end.

(** [_ex_connection_class_kwargs]; [kwargs] is what the base class
    answers. *)
Definition _ex_connection_class_kwargs {object : Type}
  (selected_region : object) (kwargs : dict string object)
  : dict string object :=
  dict_set kwargs "region" selected_region.

(** *** Vocabulary of the statements *)

(** A GET without a body. *)
Definition get_request (p : string) : request := mkRequest p "GET" None.

(** The tree of a create operation: the root carries the vendor namespace
    and one child per field, in order, with the field's value for text. *)
Definition payload (root : string) (flds : list (string * pyval)) : element :=
  Element root [("xmlns", PStr SERVER_NS)] PNone
          (map (fun f => Element (fst f) [] (snd f) []) flds).

(** What an operation that posts [payload root flds] to [p] does in the
    scope [g]: NameError where [ET] is unbound; otherwise TypeError without
    a request when the tree cannot be written, and exactly one request, the
    POST of the tree, when it can. *)
Definition create_outcome (g : globals) (op : M pyval) (p root : string)
  (flds : list (string * pyval)) : Prop :=
  forall net log,
    match g_ET g with
    | None => op net log = (Raise (NameError "ET"), log)
    | Some _ =>
        if renderable (payload root flds)
        then snd (op net log)
             = (log ++ [mkRequest p "POST" (Some (payload root flds))])%list
        else op net log = (Raise TypeError, log)
    end.

(** The one exception the scope decides on for a payload with an integer
    text: the name is unbound, or the tree cannot be written. *)
Definition payload_failure (g : globals) : exn :=
  match g_ET g with
  | None => NameError "ET"
  | Some _ => TypeError
  end.

(** The tree [balancer_detach_member] builds. *)
Definition remove_pool_member_tree (member : Member.t) : element :=
  Element "removePoolMember"
          [("xmlns", PStr SERVER_NS); ("id", Member.id member)] PNone [].

(** The virtualListener, poolMember and pool children of a document. *)
Definition listeners_of (document : element) : list element :=
  elem_findall document (fixxpath "virtualListener" TYPES_URN).

Definition pool_members_of (document : element) : list element :=
  elem_findall document (fixxpath "poolMember" TYPES_URN).

Definition pools_of (document : element) : list element :=
  elem_findall document (fixxpath "pool" TYPES_URN).

(** [lb] carries what the virtualListener element [l] says. *)
Definition balancer_of (l : element) (lb : LoadBalancer.t) : Prop :=
  LoadBalancer.id lb = elem_get l "id" /\
  LoadBalancer.name lb = findtext l "name" TYPES_URN /\
  LoadBalancer.ip lb = findtext l "listenerIpAddress" TYPES_URN /\
  LoadBalancer.port lb = findtext l "port" TYPES_URN /\
  LoadBalancer.state lb =
    py_get _VALUE_TO_STATE_MAP (findtext l "state" TYPES_URN) UNKNOWN /\
  dict_get (LoadBalancer.extra lb) "pool_id" =
    option_map (fun pool => elem_get pool "id")
               (elem_find l (fixxpath "pool" TYPES_URN)) /\
  dict_get (LoadBalancer.extra lb) "network_domain_id" =
    Some (findtext l "networkDomainId" TYPES_URN).

(** A poolMember element with a node child and a port child whose text
    [int] accepts. *)
Definition well_formed_member (child : element) : Prop :=
  exists node p s z,
    elem_find child (fixxpath "node" TYPES_URN) = Some node /\
    elem_find child (fixxpath "port" TYPES_URN) = Some p /\
    text p = PStr s /\
    int_of_string int_max_str_digits unicode_int s = Some z.

(** [m] is the member built for [balancer] from the poolMember element
    [child]. *)
Definition member_of (balancer : LoadBalancer.t) (child : element)
  (m : MemberInit.t) : Prop :=
  exists node,
    elem_find child (fixxpath "node" TYPES_URN) = Some node /\
    MemberInit.id m = elem_get child "id" /\
    MemberInit.ip m = elem_get node "ipAddress" /\
    (exists z,
        py_int int_max_str_digits unicode_int
               (findtext child "port" TYPES_URN) = Return z /\
        MemberInit.port m = PInt z) /\
    MemberInit.balancer m = balancer /\
    MemberInit.extra m = PNone.

(** [pool] carries what the pool element [p] says. *)
Definition pool_of (p : element) (pool : DimensionDataPool.t) : Prop :=
  DimensionDataPool.id pool = elem_get p "id" /\
  DimensionDataPool.name pool = findtext p "name" TYPES_URN /\
  DimensionDataPool.status pool = findtext p "state" TYPES_URN /\
  DimensionDataPool.description pool = findtext p "description" TYPES_URN.

(** The vendor state codes the table knows. *)
Definition known_state_codes : list string :=
  ["NORMAL"; "PENDING_ADD"; "PENDING_CHANGE"; "PENDING_DELETE";
   "FAILED_ADD"; "FAILED_CHANGE"; "FAILED_DELETE"; "REQUIRES_SUPPORT"].

(** Characters that may occur in an ASCII text [int] accepts. *)
Definition int_char (c : ascii) : bool :=
  match digit_of c with
  | Some _ => true
  | None =>
      is_space c || is_underscore c || Ascii.eqb c "+"%char
      || Ascii.eqb c "-"%char
  end.

(** The characters of a decimal numeral. *)
Definition chars_of_uint (d : uint) : list ascii :=
  list_ascii_of_string (NilEmpty.string_of_uint d).

(** ** Properties *)

(** *** The translation tables *)

Lemma algorithm_code_back (a : Algorithm) (code : string) :
  dict_get _ALGORITHM_TO_VALUE_MAP a = Some code ->
  dict_get _VALUE_TO_ALGORITHM_MAP code = Some a.
Proof.
  destruct a; vm_compute; intros E; inversion E; reflexivity.
Qed.

Lemma code_algorithm_back (code : string) (a : Algorithm) :
  dict_get _VALUE_TO_ALGORITHM_MAP code = Some a ->
  dict_get _ALGORITHM_TO_VALUE_MAP a = Some code.
Proof.
  change _VALUE_TO_ALGORITHM_MAP with
    [ ("ROUND_ROBIN", ROUND_ROBIN);
      ("LEAST_CONNECTIONS", LEAST_CONNECTIONS);
      ("SHORTEST_RESPONSE", SHORTEST_RESPONSE);
      ("PERSISTENT_IP", PERSISTENT_IP) ].
  unfold dict_get, key_eqb, string_key.
  repeat match goal with
         | |- context [String.eqb ?k code] =>
             destruct (String.eqb_spec k code) as [<- | _]
         end;
    intros E; inversion E; reflexivity.
Qed.

(** C2. The algorithm table and the vendor-code table are inverse to each
    other: an algorithm has vendor code [code] in the forward table exactly
    when [code] names that algorithm in the backward table; so translating
    an algorithm of the forward table and translating the result back gives
    the algorithm again. *)
Theorem algorithm_maps_inverse (a : Algorithm) (code : string) :
  dict_get _ALGORITHM_TO_VALUE_MAP a = Some code <->
  dict_get _VALUE_TO_ALGORITHM_MAP code = Some a.
Proof.
  split; [apply algorithm_code_back | apply code_algorithm_back].
Qed.

Lemma unknown_state_code (code : pyval) :
  (forall s, In s known_state_codes -> code <> PStr s) ->
  py_get _VALUE_TO_STATE_MAP code UNKNOWN = UNKNOWN.
Proof.
  intros Hnot. destruct code as [| b | z | s]; try reflexivity.
  change _VALUE_TO_STATE_MAP with
    [ ("NORMAL", RUNNING);
      ("PENDING_ADD", PENDING);
      ("PENDING_CHANGE", PENDING);
      ("PENDING_DELETE", PENDING);
      ("FAILED_ADD", ERROR);
      ("FAILED_CHANGE", ERROR);
      ("FAILED_DELETE", ERROR);
      ("REQUIRES_SUPPORT", ERROR) ].
  unfold py_get, dict_get, key_eqb, string_key.
  repeat match goal with
         | |- context [String.eqb ?k s] =>
             destruct (String.eqb_spec k s) as [E | _];
             [ exfalso; apply (Hnot k); [simpl; auto 12 | congruence] | ]
         end.
  reflexivity.
Qed.

Lemma to_balancer_state (element pool : element) :
  elem_find element (fixxpath "pool" TYPES_URN) = Some pool ->
  exists lb,
    _to_balancer element = Return lb /\
    LoadBalancer.state lb =
      py_get _VALUE_TO_STATE_MAP (findtext element "state" TYPES_URN) UNKNOWN.
Proof.
  intros Hpool. unfold _to_balancer. rewrite Hpool.
  eexists. split; reflexivity.
Qed.

(** C3. The state of a decoded virtual listener is the translation of its
    vendor state code: NORMAL gives RUNNING; PENDING_ADD, PENDING_CHANGE and
    PENDING_DELETE give PENDING; FAILED_ADD, FAILED_CHANGE, FAILED_DELETE and
    REQUIRES_SUPPORT give ERROR; every other code, and a missing one, gives
    UNKNOWN. *)
Theorem state_translation :
  let code_to_state code := py_get _VALUE_TO_STATE_MAP code UNKNOWN in
  code_to_state (PStr "NORMAL") = RUNNING /\
  code_to_state (PStr "PENDING_ADD") = PENDING /\
  code_to_state (PStr "PENDING_CHANGE") = PENDING /\
  code_to_state (PStr "PENDING_DELETE") = PENDING /\
  code_to_state (PStr "FAILED_ADD") = ERROR /\
  code_to_state (PStr "FAILED_CHANGE") = ERROR /\
  code_to_state (PStr "FAILED_DELETE") = ERROR /\
  code_to_state (PStr "REQUIRES_SUPPORT") = ERROR /\
  (forall code,
      (forall s, In s known_state_codes -> code <> PStr s) ->
      code_to_state code = UNKNOWN) /\
  (forall element pool,
      elem_find element (fixxpath "pool" TYPES_URN) = Some pool ->
      exists lb,
        _to_balancer element = Return lb /\
        LoadBalancer.state lb =
          code_to_state (findtext element "state" TYPES_URN)).
Proof.
  cbv zeta.
  repeat (split; [reflexivity | ]).
  split; [exact unknown_state_code | exact to_balancer_state].
Qed.

(** *** The create operations *)

Lemma run_request_then {A} (p m : string) (d : option element)
  (f : element -> A) (net : transport) (log : list request) :
  (response <- request_with_orgId_api_2 p m d ;; ret (f response)) net log =
  (match net log (mkRequest p m d) with
   | Return response => Return (f response)
   | Raise e => Raise e
   end, (log ++ [mkRequest p m d])%list).
Proof.
  unfold bind, request_with_orgId_api_2, ret.
  destruct (net log (mkRequest p m d)); reflexivity.
Qed.

Lemma create_run (tree : element) (p : string) (ET : xml_module)
  (k : element -> result pyval) (net : transport) (log : list request) :
  (data <- lift (ET_tostring ET tree) ;;
   response <- request_with_orgId_api_2 p "POST" (Some data) ;;
   lift (k response)) net log =
  if renderable tree
  then (match net log (mkRequest p "POST" (Some tree)) with
        | Return response => k response
        | Raise e => Raise e
        end, (log ++ [mkRequest p "POST" (Some tree)])%list)
  else (Raise TypeError, log).
Proof.
  unfold bind, lift, ET_tostring, request_with_orgId_api_2.
  destruct (renderable tree); [ | reflexivity ].
  destruct (net log (mkRequest p "POST" (Some tree))); reflexivity.
Qed.

Lemma ex_create_node_run g nd name ip descr limit rate net log :
  ex_create_node g nd name ip descr limit rate net log =
  match g_ET g with
  | None => (Raise (NameError "ET"), log)
  | Some _ =>
      let tree :=
        payload "createNode"
          [ ("networkDomainId", nd); ("description", descr); ("name", name);
            ("ipv4Address", ip); ("connectionLimit", limit);
            ("connectionRateLimit", rate) ] in
      let req := mkRequest "networkDomainVip/createNode" "POST" (Some tree) in
      if renderable tree
      then (match net log req with
            | Return response =>
                for_return (findall response "info" TYPES_URN)
                           (return_if_named "nodeId") PNone
            | Raise e => Raise e
            end, (log ++ [req])%list)
      else (Raise TypeError, log)
  end.
Proof.
  unfold ex_create_node, load_global.
  destruct (g_ET g) as [ET | ]; [ | reflexivity ].
  exact (create_run _ _ ET _ net log).
Qed.

Lemma ex_create_pool_run g nd name method descr action ramp net log :
  ex_create_pool g nd name method descr action ramp net log =
  match g_ET g with
  | None => (Raise (NameError "ET"), log)
  | Some _ =>
      let tree :=
        payload "createPool"
          [ ("networkDomainId", nd); ("description", descr); ("name", name);
            ("loadBalancerMethod", method); ("serviceDownAction", action);
            ("slowRampTime", ramp) ] in
      let req := mkRequest "networkDomainVip/createPool" "POST" (Some tree) in
      if renderable tree
      then (match net log req with
            | Return response =>
                for_return (findall response "info" TYPES_URN)
                           (return_if_named "poolId") (PBool false)
            | Raise e => Raise e
            end, (log ++ [req])%list)
      else (Raise TypeError, log)
  end.
Proof.
  unfold ex_create_pool, load_global.
  destruct (g_ET g) as [ET | ]; [ | reflexivity ].
  exact (create_run _ _ ET _ net log).
Qed.

Lemma ex_create_pool_member_run g pool_id node_id port net log :
  ex_create_pool_member g pool_id node_id port net log =
  match g_ET g with
  | None => (Raise (NameError "ET"), log)
  | Some _ =>
      let tree :=
        payload "addPoolMember"
          [ ("poolId", pool_id); ("nodeId", node_id); ("port", port) ] in
      let req :=
        mkRequest "networkDomainVip/addPoolMember" "POST" (Some tree) in
      if renderable tree
      then (match net log req with
            | Return response =>
                for_return (findall response "info" TYPES_URN)
                           (return_if_named "poolMemberId") (PBool false)
            | Raise e => Raise e
            end, (log ++ [req])%list)
      else (Raise TypeError, log)
  end.
Proof.
  unfold ex_create_pool_member, load_global.
  destruct (g_ET g) as [ET | ]; [ | reflexivity ].
  exact (create_run _ _ ET _ net log).
Qed.

Lemma ex_create_virtual_listener_run g nd name descr port ty proto limit rate
  preservation net log :
  ex_create_virtual_listener g nd name descr port ty proto limit rate
                             preservation net log =
  match g_ET g with
  | None => (Raise (NameError "ET"), log)
  | Some _ =>
      let tree :=
        payload "createVirtualListener"
          [ ("networkDomainId", nd); ("description", descr); ("name", name);
            ("port", port); ("type", ty); ("connectionLimit", limit);
            ("connectionRateLimit", rate);
            ("sourcePortPreservation", preservation) ] in
      let req :=
        mkRequest "networkDomainVip/createVirtualListener" "POST"
                  (Some tree) in
      if renderable tree
      then (match net log req with
            | Return response =>
                for_return (findall response "info" TYPES_URN)
                           (return_if_named "poolId") (PBool false)
            | Raise e => Raise e
            end, (log ++ [req])%list)
      else (Raise TypeError, log)
  end.
Proof.
  unfold ex_create_virtual_listener, load_global.
  destruct (g_ET g) as [ET | ]; [ | reflexivity ].
  exact (create_run _ _ ET _ net log).
Qed.

Lemma renderable_payload (root : string) (flds : list (string * pyval)) :
  renderable (payload root flds) = forallb (fun f => text_ok (snd f)) flds.
Proof.
  unfold payload. cbn [renderable forallb snd is_str text_ok truthy negb orb
                         andb].
  induction flds as [| f rest IH]; [reflexivity | ].
  cbn [map forallb renderable andb]. rewrite IH.
  rewrite andb_true_r. reflexivity.
Qed.

Lemma unrenderable_field (root : string) (flds : list (string * pyval))
  (f : string * pyval) :
  In f flds -> text_ok (snd f) = false ->
  renderable (payload root flds) = false.
Proof.
  intros Hin Hbad. rewrite renderable_payload.
  destruct (forallb (fun f0 => text_ok (snd f0)) flds) eqn:E; [ | reflexivity ].
  rewrite forallb_forall in E. rewrite (E f Hin) in Hbad. discriminate Hbad.
Qed.

(** The scan for the id: an answer without info entries gives the
    sentinel; on the first entry the read of [info.name] raises. *)
Lemma scan_outcome (key : string) (sentinel : pyval) (infos : list element) :
  for_return infos (return_if_named key) sentinel =
  match infos with
  | [] => Return sentinel
  | _ :: _ => Raise AttributeError
  end.
Proof. destruct infos; reflexivity. Qed.

(** C4. In the scope the module provides, no create operation reaches the
    extraction of an id: each raises, NameError for [ET], on its first
    line, so it returns neither an id nor a falsy value, and it makes no
    request. *)
Theorem id_extraction_never_reached :
  forall (nd name ip descr limit rate method action ramp pool_id node_id port
            ty proto preservation : pyval)
         (net : transport) (log : list request),
  let never (run : result pyval * list request) :=
    returns (fst run) = false /\ snd run = log in
  never (ex_create_node module_globals nd name ip descr limit rate net log) /\
  never (ex_create_pool module_globals nd name method descr action ramp
                        net log) /\
  never (ex_create_pool_member module_globals pool_id node_id port net log) /\
  never (ex_create_virtual_listener module_globals nd name descr port ty
                                    proto limit rate preservation net log).
Proof.
  intros. subst never. cbv beta.
  rewrite ex_create_node_run, ex_create_pool_run, ex_create_pool_member_run,
    ex_create_virtual_listener_run.
  repeat split.
Qed.

(** C10. In the scope the module provides, the four create operations end
    alike, whatever the arguments and the transport: NameError for [ET]
    and no request.  None of them gets an answer to search, and none
    returns [None] or [False]. *)
Theorem failure_sentinels_never_returned :
  forall (nd name ip descr limit rate method action ramp pool_id node_id port
            ty proto preservation : pyval)
         (net : transport) (log : list request),
  ex_create_node module_globals nd name ip descr limit rate net log
  = (Raise (NameError "ET"), log) /\
  ex_create_pool module_globals nd name method descr action ramp net log
  = (Raise (NameError "ET"), log) /\
  ex_create_pool_member module_globals pool_id node_id port net log
  = (Raise (NameError "ET"), log) /\
  ex_create_virtual_listener module_globals nd name descr port ty proto limit
                             rate preservation net log
  = (Raise (NameError "ET"), log).
Proof. intros. repeat split. Qed.

(** *** Request payloads *)

Lemma ex_create_node_default_run g nd name ip descr net log :
  ex_create_node g nd name ip descr default_connection_limit
                 default_connection_rate_limit net log
  = (Raise (payload_failure g), log).
Proof.
  rewrite ex_create_node_run. unfold payload_failure.
  destruct (g_ET g); [ | reflexivity ]. cbv zeta.
  rewrite (unrenderable_field _ _
             ("connectionLimit", default_connection_limit));
    [reflexivity | simpl; auto 12 | reflexivity].
Qed.

Lemma ex_create_pool_default_run g nd name method descr net log :
  ex_create_pool g nd name method descr default_service_down_action
                 default_slow_ramp_time net log
  = (Raise (payload_failure g), log).
Proof.
  rewrite ex_create_pool_run. unfold payload_failure.
  destruct (g_ET g); [ | reflexivity ]. cbv zeta.
  rewrite (unrenderable_field _ _ ("slowRampTime", default_slow_ramp_time));
    [reflexivity | simpl; auto 12 | reflexivity].
Qed.

Lemma ex_create_virtual_listener_default_run g nd name descr port net log :
  ex_create_virtual_listener g nd name descr port default_listener_type
    default_protocol default_connection_limit default_connection_rate_limit
    default_source_port_preservation net log
  = (Raise (payload_failure g), log).
Proof.
  rewrite ex_create_virtual_listener_run. unfold payload_failure.
  destruct (g_ET g); [ | reflexivity ]. cbv zeta.
  rewrite (unrenderable_field _ _
             ("connectionLimit", default_connection_limit));
    [reflexivity | simpl; auto 12 | reflexivity].
Qed.

(** C6. With the default limits no payload is ever written, let alone
    sent with the limits as strings: [ex_create_node], [ex_create_pool] and
    [ex_create_virtual_listener] raise without a request, NameError for
    [ET] in the scope the module provides and, where [ET] is bound,
    TypeError from [ET.tostring], because the texts of connectionLimit,
    connectionRateLimit and slowRampTime are the integers 25000, 2000 and
    30 and not strings. *)
Theorem default_limits_never_rendered :
  forall (g : globals) (nd name ip descr method port : pyval)
         (net : transport) (log : list request),
  ex_create_node g nd name ip descr default_connection_limit
                 default_connection_rate_limit net log
  = (Raise (payload_failure g), log) /\
  ex_create_pool g nd name method descr default_service_down_action
                 default_slow_ramp_time net log
  = (Raise (payload_failure g), log) /\
  ex_create_virtual_listener g nd name descr port default_listener_type
    default_protocol default_connection_limit default_connection_rate_limit
    default_source_port_preservation net log
  = (Raise (payload_failure g), log) /\
  payload_failure module_globals = NameError "ET" /\
  default_connection_limit = PInt 25000 /\
  default_connection_rate_limit = PInt 2000 /\
  default_slow_ramp_time = PInt 30 /\
  text_ok (PInt 25000) = false /\
  text_ok (PInt 2000) = false /\
  text_ok (PInt 30) = false.
Proof.
  intros.
  split; [apply ex_create_node_default_run | ].
  split; [apply ex_create_pool_default_run | ].
  split; [apply ex_create_virtual_listener_default_run | ].
  repeat split.
Qed.

(** *** Destroying a balancer *)

(** C7. In the scope the module provides, [destroy_balancer] raises
    NameError for [ET] on its first line: it makes no
    delete-virtual-listener request, or any other, and does not return
    [True]. *)
Theorem destroy_balancer_raises_NameError :
  forall (balancer : LoadBalancer.t) (net : transport) (log : list request),
  destroy_balancer module_globals balancer net log
  = (Raise (NameError "ET"), log).
Proof. reflexivity. Qed.

(** *** The workflow of [create_balancer] *)



(** *** The workflows under the module's own scope *)

(** C1. In the scope the module provides, [create_balancer] raises
    NameError for [_ALGORITHM_TO_VALUE_MAP] while it evaluates the arguments
    of its first call: it makes no request at all and returns nothing. *)
Theorem create_balancer_raises_NameError :
  forall (name port protocol : pyval) (algorithm : Algorithm)
         (members : list Member.t) (net : transport) (log : list request),
  create_balancer module_globals name port protocol algorithm members net log
  = (Raise (NameError "_ALGORITHM_TO_VALUE_MAP"), log).
Proof. reflexivity. Qed.

Lemma balancer_attach_member_run (g : globals) (balancer : LoadBalancer.t)
  (member : Member.t) (net : transport) (log : list request) :
  balancer_attach_member g balancer member net log =
  match subscript (LoadBalancer.extra balancer) "network_domain_id" with
  | Raise e => (Raise e, log)
  | Return _ => (Raise (payload_failure g), log)
  end.
Proof.
  unfold balancer_attach_member. unfold bind at 1. unfold lift at 1.
  destruct (subscript (LoadBalancer.extra balancer) "network_domain_id")
    as [nd | e]; [ | reflexivity ].
  unfold bind at 1. rewrite ex_create_node_default_run. reflexivity.
Qed.

(** C5. [balancer_attach_member] never returns, in any scope: it raises
    before a single request is made, so it neither aborts with [False]
    after a failed node creation nor attaches a node and returns a boolean.
    In the scope the module provides the exception is NameError for [ET],
    raised inside [ex_create_node]; the comparison with [false] is never
    reached. *)
Theorem balancer_attach_member_never_returns :
  forall (g : globals) (balancer : LoadBalancer.t) (member : Member.t)
         (net : transport) (log : list request),
  let run := balancer_attach_member g balancer member net log in
  returns (fst run) = false /\
  snd run = log /\
  (forall nd,
      subscript (LoadBalancer.extra balancer) "network_domain_id" = Return nd ->
      balancer_attach_member module_globals balancer member net log
      = (Raise (NameError "ET"), log)).
Proof.
  intros g balancer member net log. cbv zeta.
  rewrite !balancer_attach_member_run.
  destruct (subscript (LoadBalancer.extra balancer) "network_domain_id")
    as [nd | e].
  - repeat split.
  - split; [reflexivity | split; [reflexivity | ] ].
    intros nd E. discriminate E.
Qed.

(** *** [int] on numerals and on malformed text *)

Lemma digits_acc_digit (c : ascii) (d acc : Z) (prev : bool)
  (rest : list ascii) :
  digit_of c = Some d ->
  digits_acc acc prev (c :: rest) = digits_acc (10 * acc + d) true rest.
Proof. intros E. simpl. rewrite E. reflexivity. Qed.

Lemma digit_bounds (c : ascii) (d : Z) :
  digit_of c = Some d ->
  48 <= Z.of_N (N_of_ascii c) <= 57.
Proof.
  unfold digit_of. cbv zeta.
  destruct (48 <=? Z.of_N (N_of_ascii c)) eqn:E1;
    destruct (Z.of_N (N_of_ascii c) <=? 57) eqn:E2;
    simpl; try discriminate.
  intros _. apply Z.leb_le in E1. apply Z.leb_le in E2. lia.
Qed.

Lemma digit_not_space (c : ascii) (d : Z) :
  digit_of c = Some d -> is_space c = false.
Proof.
  intros H. apply digit_bounds in H. unfold is_space. cbv zeta.
  assert (E3 : (Z.of_N (N_of_ascii c) <=? 13) = false)
    by (apply Z.leb_gt; lia).
  assert (E4 : (Z.of_N (N_of_ascii c) =? 32) = false)
    by (apply Z.eqb_neq; lia).
  rewrite E3, E4, andb_false_r. reflexivity.
Qed.

Lemma digit_is_ascii (c : ascii) (d : Z) :
  digit_of c = Some d -> (Z.of_N (N_of_ascii c) <? 128) = true.
Proof. intros H. apply digit_bounds in H. apply Z.ltb_lt. lia. Qed.

Lemma chars_of_uint_digits (d : uint) :
  Forall (fun c => exists v, digit_of c = Some v) (chars_of_uint d).
Proof.
  unfold chars_of_uint.
  induction d; simpl; constructor; try exact IHd; eexists; reflexivity.
Qed.

Lemma digits_acc_uint (d : uint) :
  forall (acc : nat) (prev : bool),
  d <> Nil \/ prev = true ->
  digits_acc (Z.of_nat acc) prev (chars_of_uint d) =
  Some (Z.of_nat (Nat.of_uint_acc d acc)).
Proof.
  unfold chars_of_uint.
  induction d; intros acc prev Hne;
    [ destruct Hne as [Hne | ->]; [contradiction | reflexivity] | .. ];
    cbn [NilEmpty.string_of_uint list_ascii_of_string Nat.of_uint_acc];
    first [ rewrite (digits_acc_digit _ 0) by reflexivity
          | rewrite (digits_acc_digit _ 1) by reflexivity
          | rewrite (digits_acc_digit _ 2) by reflexivity
          | rewrite (digits_acc_digit _ 3) by reflexivity
          | rewrite (digits_acc_digit _ 4) by reflexivity
          | rewrite (digits_acc_digit _ 5) by reflexivity
          | rewrite (digits_acc_digit _ 6) by reflexivity
          | rewrite (digits_acc_digit _ 7) by reflexivity
          | rewrite (digits_acc_digit _ 8) by reflexivity
          | rewrite (digits_acc_digit _ 9) by reflexivity ];
    match goal with
    | |- _ = Some (Z.of_nat (Nat.of_uint_acc _ ?a)) =>
        rewrite <- (IHd a true (or_intror eq_refl))
    end;
    f_equal; rewrite Nat.tail_mul_spec; lia.
Qed.

Lemma lstrip_no_space (cs : list ascii) :
  Forall (fun c => is_space c = false) cs -> lstrip cs = cs.
Proof.
  intros H. destruct H as [| c rest Hc _]; simpl; [reflexivity | ].
  rewrite Hc. reflexivity.
Qed.

Lemma strip_no_space (cs : list ascii) :
  Forall (fun c => is_space c = false) cs -> strip cs = cs.
Proof.
  intros H. unfold strip. rewrite (lstrip_no_space cs H).
  rewrite lstrip_no_space by (apply Forall_rev; exact H).
  apply List.rev_involutive.
Qed.

Lemma digit_count_le (cs : list ascii) :
  (digit_count cs <= List.length cs)%nat.
Proof. unfold digit_count. apply filter_length_le. Qed.

Lemma length_list_ascii (s : string) :
  List.length (list_ascii_of_string s) = String.length s.
Proof.
  induction s as [| c s IH]; simpl; [reflexivity | ].
  rewrite IH. reflexivity.
Qed.

Lemma within_limit (cs : list ascii) :
  int_max_str_digits <= 0 \/
  Z.of_nat (List.length cs) <= int_max_str_digits ->
  too_long int_max_str_digits cs = false.
Proof.
  intros Hlim. unfold too_long. cbv zeta.
  pose proof (digit_count_le cs) as Hle.
  destruct (0 <? int_max_str_digits) eqn:E1;
    [ | rewrite andb_false_r; reflexivity ].
  destruct (int_max_str_digits <? Z.of_nat (digit_count cs)) eqn:E2;
    [ | rewrite andb_false_r; reflexivity ].
  apply Z.ltb_lt in E1. apply Z.ltb_lt in E2. lia.
Qed.

(** A nonempty string of ASCII digits, no longer than the limit allows,
    denotes the number the standard library reads in it. *)
Lemma int_of_numeral (s : string) (d : uint) :
  NilEmpty.uint_of_string s = Some d -> d <> Nil ->
  int_max_str_digits <= 0 \/
  Z.of_nat (String.length s) <= int_max_str_digits ->
  int_of_string int_max_str_digits unicode_int s
  = Some (Z.of_nat (Nat.of_uint d)).
Proof.
  intros Hparse Hne Hlim. apply NilEmpty.sus in Hparse. subst s.
  rewrite <- length_list_ascii in Hlim. fold (chars_of_uint d) in Hlim.
  pose proof (chars_of_uint_digits d) as Hdigits.
  unfold int_of_string.
  assert (Hascii : is_ascii (NilEmpty.string_of_uint d) = true).
  { unfold is_ascii. fold (chars_of_uint d). apply forallb_forall.
    intros c Hc. rewrite Forall_forall in Hdigits.
    destruct (Hdigits c Hc) as [v Hv]. exact (digit_is_ascii c v Hv). }
  rewrite Hascii. unfold ascii_int. fold (chars_of_uint d). cbv zeta.
  rewrite strip_no_space.
  2:{ eapply Forall_impl; [ | exact Hdigits ].
      intros c [v Hv]. exact (digit_not_space c v Hv). }
  rewrite (within_limit _ Hlim).
  pose proof (digits_acc_uint d 0 false (or_introl Hne)) as Hrun.
  change (Nat.of_uint_acc d 0) with (Nat.of_uint d) in Hrun.
  change (Z.of_nat 0) with 0 in Hrun.
  destruct (chars_of_uint d) as [| c rest] eqn:Echars.
  - discriminate Hrun.
  - inversion Hdigits as [| c' rest' [v Hv] _]. subst c' rest'.
    destruct (Ascii.eqb_spec c "+"%char) as [-> | _]; [discriminate Hv | ].
    destruct (Ascii.eqb_spec c "-"%char) as [-> | _]; [discriminate Hv | ].
    exact Hrun.
Qed.

Lemma digits_acc_chars (cs : list ascii) :
  forall acc prev z,
  digits_acc acc prev cs = Some z -> Forall (fun c => int_char c = true) cs.
Proof.
  induction cs as [| c rest IH]; intros acc prev z H; [constructor | ].
  simpl in H. constructor.
  - unfold int_char. destruct (digit_of c); [reflexivity | ].
    destruct (is_underscore c); [ | discriminate H ].
    rewrite orb_true_r. reflexivity.
  - destruct (digit_of c).
    + exact (IH _ _ _ H).
    + destruct (is_underscore c && prev); [ | discriminate H ].
      exact (IH _ _ _ H).
Qed.

Lemma lstrip_keeps (cs : list ascii) (c : ascii) :
  In c cs -> is_space c = true \/ In c (lstrip cs).
Proof.
  induction cs as [| c0 rest IH]; intros Hin; [contradiction | ].
  simpl. destruct (is_space c0) eqn:E.
  - destruct Hin as [<- | Hin]; [left; exact E | exact (IH Hin)].
  - right. exact Hin.
Qed.

Lemma strip_keeps (cs : list ascii) (c : ascii) :
  In c cs -> is_space c = true \/ In c (strip cs).
Proof.
  intros Hin. unfold strip.
  destruct (lstrip_keeps cs c Hin) as [H | H]; [left; exact H | ].
  apply in_rev in H.
  destruct (lstrip_keeps _ c H) as [H' | H']; [left; exact H' | ].
  right. apply in_rev in H'. exact H'.
Qed.

Lemma space_is_int_char (c : ascii) : is_space c = true -> int_char c = true.
Proof.
  intros H. unfold int_char. destruct (digit_of c); [reflexivity | ].
  rewrite H. reflexivity.
Qed.

Lemma ascii_int_chars (s : string) (z : Z) :
  ascii_int int_max_str_digits s = Some z ->
  Forall (fun c => int_char c = true) (list_ascii_of_string s).
Proof.
  unfold ascii_int. cbv zeta. intros H. apply Forall_forall. intros c Hin.
  destruct (too_long int_max_str_digits (strip (list_ascii_of_string s)));
    [discriminate H | ].
  destruct (strip_keeps _ c Hin) as [Hsp | Hin'];
    [exact (space_is_int_char c Hsp) | ].
  destruct (strip (list_ascii_of_string s)) as [| c0 rest];
    [contradiction | ].
  assert (Hrest : forall y, digits_acc 0 false rest = Some y ->
                            In c rest -> int_char c = true).
  { intros y Hy Hc. pose proof (digits_acc_chars rest 0 false y Hy) as HF.
    rewrite Forall_forall in HF. exact (HF c Hc). }
  destruct (Ascii.eqb_spec c0 "+"%char) as [-> | _].
  { destruct Hin' as [<- | Hc]; [reflexivity | exact (Hrest z H Hc)]. }
  destruct (Ascii.eqb_spec c0 "-"%char) as [-> | _].
  { destruct Hin' as [<- | Hc]; [reflexivity | ].
    destruct (digits_acc 0 false rest) as [y | ] eqn:Ey; [ | discriminate H ].
    exact (Hrest y eq_refl Hc). }
  pose proof (digits_acc_chars (c0 :: rest) 0 false z H) as HF.
  rewrite Forall_forall in HF. exact (HF c Hin').
Qed.

Lemma int_rejects_foreign_char (s : string) (c : ascii) :
  is_ascii s = true ->
  In c (list_ascii_of_string s) -> int_char c = false ->
  int_of_string int_max_str_digits unicode_int s = None.
Proof.
  intros Hascii Hin Hc. unfold int_of_string. rewrite Hascii.
  destruct (ascii_int int_max_str_digits s) as [z | ] eqn:E;
    [ | reflexivity ].
  pose proof (ascii_int_chars s z E) as HF.
  rewrite Forall_forall in HF. rewrite (HF c Hin) in Hc. discriminate Hc.
Qed.

Lemma py_or_str (s : string) : py_or (PStr s) (PStr "") = PStr s.
Proof. destruct s; reflexivity. Qed.

Lemma to_member_run (element node p : element) (s : string) :
  elem_find element (fixxpath "node" TYPES_URN) = Some node ->
  elem_find element (fixxpath "port" TYPES_URN) = Some p ->
  text p = PStr s ->
  _to_member element =
  match int_of_string int_max_str_digits unicode_int s with
  | Some z =>
      Return (DimensionDataPoolMember.mk
                (elem_get element "id") (elem_get node "name")
                (findtext element "state" TYPES_URN)
                (elem_get node "ipAddress") (PInt z))
  | None => Raise ValueError
  end.
Proof.
  intros Hnode Hport Htext.
  assert (Hft : findtext element "port" TYPES_URN = PStr s).
  { unfold findtext, elem_findtext. rewrite Hport, Htext. apply py_or_str. }
  unfold _to_member. rewrite Hnode. cbv zeta. rewrite Hft.
  unfold py_int.
  destruct (int_of_string int_max_str_digits unicode_int s); reflexivity.
Qed.

(** C8 (amended). For a pool-member element that has a node child:
    whenever [int] accepts the text of the port child, decoding gives a
    member whose port is that integer, not the text - for a nonempty string
    of ASCII digits that is no longer than the interpreter's limit on
    numerals allows, the number the digits denote; and when [int] rejects
    the text - in particular when it is empty, or is ASCII text with a
    character other than a digit, a sign, an underscore or white space -
    decoding raises ValueError and yields no member. *)
Theorem to_member_port_integer :
  forall element node p : element,
  elem_find element (fixxpath "node" TYPES_URN) = Some node ->
  elem_find element (fixxpath "port" TYPES_URN) = Some p ->
  (forall s z,
      text p = PStr s ->
      int_of_string int_max_str_digits unicode_int s = Some z ->
      _to_member element =
      Return (DimensionDataPoolMember.mk
                (elem_get element "id") (elem_get node "name")
                (findtext element "state" TYPES_URN)
                (elem_get node "ipAddress") (PInt z))) /\
  (forall s d,
      text p = PStr s ->
      NilEmpty.uint_of_string s = Some d -> d <> Nil ->
      int_max_str_digits <= 0 \/
      Z.of_nat (String.length s) <= int_max_str_digits ->
      exists m,
        _to_member element = Return m /\
        DimensionDataPoolMember.port m = PInt (Z.of_nat (Nat.of_uint d))) /\
  (forall s,
      text p = PStr s ->
      int_of_string int_max_str_digits unicode_int s = None ->
      _to_member element = Raise ValueError) /\
  (forall s c,
      text p = PStr s -> is_ascii s = true ->
      In c (list_ascii_of_string s) -> int_char c = false ->
      _to_member element = Raise ValueError) /\
  (text p = PStr "" -> _to_member element = Raise ValueError).
Proof.
  intros element node p Hnode Hport.
  split; [ | split; [ | split; [ | split ] ] ].
  - intros s z Htext Hint.
    rewrite (to_member_run element node p _ Hnode Hport Htext), Hint.
    reflexivity.
  - intros s d Htext Hparse Hne Hlim.
    rewrite (to_member_run element node p _ Hnode Hport Htext).
    rewrite (int_of_numeral s d Hparse Hne Hlim).
    eexists. split; reflexivity.
  - intros s Htext Hbad.
    rewrite (to_member_run element node p _ Hnode Hport Htext), Hbad.
    reflexivity.
  - intros s c Htext Hascii Hin Hc.
    rewrite (to_member_run element node p _ Hnode Hport Htext).
    rewrite (int_rejects_foreign_char s c Hascii Hin Hc). reflexivity.
  - intros Htext.
    rewrite (to_member_run element node p _ Hnode Hport Htext).
    reflexivity.
Qed.

(** *** Lists of decoded entities *)

Lemma run_request_lift {A} (p m : string) (d : option element)
  (f : element -> result A) (net : transport) (log : list request) :
  (x <- request_with_orgId_api_2 p m d ;; lift (f x)) net log =
  (match net log (mkRequest p m d) with
   | Return x => f x
   | Raise e => Raise e
   end, (log ++ [mkRequest p m d])%list).
Proof.
  unfold bind, request_with_orgId_api_2, lift.
  destruct (net log (mkRequest p m d)); reflexivity.
Qed.

Lemma map_result_returns {A B} (f : A -> result B) (xs : list A) :
  returns (map_result f xs) = forallb (fun x => returns (f x)) xs.
Proof.
  induction xs as [| x rest IH]; [reflexivity | ].
  simpl. destruct (f x); simpl; [ | reflexivity ].
  rewrite <- IH. destruct (map_result f rest); reflexivity.
Qed.

Lemma map_result_Forall2 {A B} (f : A -> result B) (xs : list A)
  (bs : list B) :
  map_result f xs = Return bs <-> Forall2 (fun x b => f x = Return b) xs bs.
Proof.
  revert bs. induction xs as [| x rest IH]; intros bs; simpl.
  - split.
    + intros E. inversion E. constructor.
    + intros H. inversion H. reflexivity.
  - destruct (f x) as [b | e] eqn:Ex.
    + destruct (map_result f rest) as [bs' | e'].
      * split.
        -- intros E. inversion E. subst bs. constructor; [exact Ex | ].
           apply IH. reflexivity.
        -- intros H. inversion H as [| ? b0 ? bs0 Hb Hrest]. subst.
           apply IH in Hrest. inversion Hrest.
           rewrite Ex in Hb. inversion Hb. reflexivity.
      * split; [discriminate | ].
        intros H. inversion H as [| ? b0 ? bs0 Hb Hrest]. subst.
        apply IH in Hrest. discriminate Hrest.
    + split; [discriminate | ].
      intros H. inversion H as [| ? b0 ? bs0 Hb Hrest]. subst.
      rewrite Ex in Hb. discriminate Hb.
Qed.

Lemma map_result_all {A B} (f : A -> result B) (xs : list A) :
  (forall x, In x xs -> returns (f x) = true) ->
  exists bs, map_result f xs = Return bs.
Proof.
  intros Hall.
  assert (H : returns (map_result f xs) = true).
  { rewrite map_result_returns. apply forallb_forall. exact Hall. }
  destruct (map_result f xs) as [bs | e]; [ | discriminate H ].
  exists bs. reflexivity.
Qed.

Lemma map_result_first_failure {A B} (f : A -> result B)
  (pre post : list A) (x : A) (e : exn) :
  (forall y, In y pre -> returns (f y) = true) ->
  f x = Raise e ->
  map_result f (pre ++ x :: post) = Raise e.
Proof.
  intros Hpre Hx. induction pre as [| y pre IH]; simpl.
  - rewrite Hx. reflexivity.
  - pose proof (Hpre y (or_introl eq_refl)) as Hy.
    destruct (f y); [ | discriminate Hy ].
    rewrite IH; [reflexivity | ].
    intros z Hz. apply Hpre. right. exact Hz.
Qed.

Lemma map_result_raise_in {A B} (f : A -> result B) (xs : list A) (e : exn) :
  map_result f xs = Raise e -> exists x, In x xs /\ f x = Raise e.
Proof.
  induction xs as [| x rest IH]; simpl; [discriminate | ].
  destruct (f x) as [b | e'] eqn:Ex.
  - destruct (map_result f rest) as [bs | e'']; [discriminate | ].
    intros E. inversion E. subst e''.
    destruct (IH eq_refl) as (y & Hy & Hfy).
    exists y. split; [right; exact Hy | exact Hfy].
  - intros E. inversion E. subst e'.
    exists x. split; [left; reflexivity | exact Ex].
Qed.

Lemma to_balancer_with_pool (l pool : element) :
  elem_find l (fixxpath "pool" TYPES_URN) = Some pool ->
  exists lb, _to_balancer l = Return lb /\ balancer_of l lb.
Proof.
  intros Hpool. unfold _to_balancer. rewrite Hpool. cbv zeta.
  eexists. split; [reflexivity | ].
  unfold balancer_of. rewrite Hpool. repeat split.
Qed.

Lemma to_balancer_without_pool (l : element) :
  elem_find l (fixxpath "pool" TYPES_URN) = None ->
  _to_balancer l = Raise AttributeError.
Proof. intros Hpool. unfold _to_balancer. rewrite Hpool. reflexivity. Qed.

Lemma to_balancer_raises_only_AttributeError (l : element) (e : exn) :
  _to_balancer l = Raise e -> e = AttributeError.
Proof.
  unfold _to_balancer.
  destruct (elem_find l (fixxpath "pool" TYPES_URN)); intros E;
    inversion E; reflexivity.
Qed.

Lemma to_balancer_inv (l : element) (lb : LoadBalancer.t) :
  _to_balancer l = Return lb ->
  exists pool,
    elem_find l (fixxpath "pool" TYPES_URN) = Some pool /\ balancer_of l lb.
Proof.
  intros E.
  destruct (elem_find l (fixxpath "pool" TYPES_URN)) as [pool | ] eqn:Hpool.
  - destruct (to_balancer_with_pool l pool Hpool) as (lb' & E' & Hof).
    rewrite E in E'. inversion E'. subst lb'.
    exists pool. split; [reflexivity | exact Hof].
  - rewrite (to_balancer_without_pool l Hpool) in E. discriminate E.
Qed.

Lemma Forall2_impl_in {A B} (P Q : A -> B -> Prop) (xs : list A)
  (bs : list B) :
  (forall x b, In x xs -> P x b -> Q x b) ->
  Forall2 P xs bs -> Forall2 Q xs bs.
Proof.
  intros HPQ H. induction H as [| x b xs bs Hxb Hrest IH]; constructor.
  - apply HPQ; [left; reflexivity | exact Hxb].
  - apply IH. intros y c Hy. apply HPQ. right. exact Hy.
Qed.

(** X1. What [balancer_detach_member] does is decided by the scope and by
    the member's id; the balancer plays no part.  Where [ET] is unbound, as
    in the module itself, it raises NameError on its first line.  Where
    [ET] is bound it raises TypeError, still without a request, unless the
    id is a string; with a string id it makes exactly one request, the POST
    of a removePoolMember element carrying that id, and then returns [True]
    whatever document the transport answers with, an exception of the
    transport passing through. *)
Theorem balancer_detach_member_outcome :
  forall (g : globals) (balancer : LoadBalancer.t) (member : Member.t)
         (net : transport) (log : list request),
  let run := balancer_detach_member g balancer member net log in
  let req :=
    mkRequest "networkDomainVip/removePoolMember" "POST"
              (Some (remove_pool_member_tree member)) in
  (g_ET g = None -> run = (Raise (NameError "ET"), log)) /\
  (g_ET g <> None -> is_str (Member.id member) = false ->
   run = (Raise TypeError, log)) /\
  (g_ET g <> None -> is_str (Member.id member) = true ->
   snd run = (log ++ [req])%list /\
   (forall response,
       net log req = Return response -> fst run = Return (PBool true)) /\
   (forall e, net log req = Raise e -> fst run = Raise e)) /\
  (forall balancer', balancer_detach_member g balancer' member net log = run).
Proof.
  intros g balancer member net log run req. subst run req.
  unfold balancer_detach_member, load_global, remove_pool_member_tree.
  destruct (g_ET g) as [ET | ].
  - unfold bind, ret, lift, ET_tostring, ET_Element, request_with_orgId_api_2.
    cbn [renderable forallb snd is_str text_ok truthy negb orb andb].
    split; [discriminate | ].
    split.
    + intros _ Hid. rewrite Hid. reflexivity.
    + split; [ | reflexivity ].
      intros _ Hid. rewrite Hid. cbn [andb].
      split; [ destruct (net log _); reflexivity | ].
      split; intros x Hx; rewrite Hx; reflexivity.
  - split; [reflexivity | ].
    split; [intros H; contradiction H; reflexivity | ].
    split; [intros H; contradiction H; reflexivity | reflexivity].
Qed.

(** X2. [list_balancers] makes one GET of the virtual-listener collection;
    when every virtualListener child of the answer has a pool child, it
    returns one balancer per such child, in document order, each carrying
    the id, name, address, port, translated state, pool id and network
    domain of its element.  Children under other tags are skipped. *)
Theorem list_balancers_in_order :
  forall (net : transport) (log : list request) (document : element),
  let req := get_request "networkDomainVip/virtualListener" in
  net log req = Return document ->
  (forall l, In l (listeners_of document) ->
             elem_find l (fixxpath "pool" TYPES_URN) <> None) ->
  exists lbs,
    list_balancers net log = (Return lbs, (log ++ [req])%list) /\
    Forall2 balancer_of (listeners_of document) lbs.
Proof.
  intros net log document req Hnet Hpools. subst req.
  unfold list_balancers, get_request in *. rewrite run_request_lift, Hnet.
  unfold _to_balancers. fold (listeners_of document).
  destruct (map_result_all _to_balancer (listeners_of document)) as (lbs & E).
  { intros l Hl. specialize (Hpools l Hl).
    destruct (elem_find l (fixxpath "pool" TYPES_URN)) as [pool | ] eqn:Hp;
      [ | contradiction ].
    destruct (to_balancer_with_pool l pool Hp) as (lb & -> & _).
    reflexivity. }
  exists lbs. rewrite E. split; [reflexivity | ].
  apply map_result_Forall2 in E.
  eapply Forall2_impl_in; [ | exact E ].
  intros l lb _ Hl. destruct (to_balancer_inv l lb Hl) as (_ & _ & Hof).
  exact Hof.
Qed.

(** X3. One virtualListener child without a pool child spoils the whole
    listing: [list_balancers] raises AttributeError and returns no balancer
    at all, however many well-formed listeners the answer has. *)
Theorem list_balancers_all_or_nothing :
  forall (net : transport) (log : list request) (document l : element),
  let req := get_request "networkDomainVip/virtualListener" in
  net log req = Return document ->
  In l (listeners_of document) ->
  elem_find l (fixxpath "pool" TYPES_URN) = None ->
  list_balancers net log = (Raise AttributeError, (log ++ [req])%list).
Proof.
  intros net log document l req Hnet Hin Hpool. subst req.
  unfold list_balancers, get_request in *. rewrite run_request_lift, Hnet.
  unfold _to_balancers. fold (listeners_of document).
  destruct (map_result _to_balancer (listeners_of document)) as [lbs | e]
    eqn:E.
  - exfalso.
    assert (H : returns (map_result _to_balancer (listeners_of document))
                = true) by (rewrite E; reflexivity).
    rewrite map_result_returns in H.
    rewrite forallb_forall in H. specialize (H l Hin).
    rewrite (to_balancer_without_pool l Hpool) in H. discriminate H.
  - destruct (map_result_raise_in _ _ _ E) as (x & _ & Hx).
    rewrite (to_balancer_raises_only_AttributeError x e Hx). reflexivity.
Qed.

Lemma state_in_range (code : pyval) :
  In (py_get _VALUE_TO_STATE_MAP code UNKNOWN)
     [RUNNING; PENDING; ERROR; UNKNOWN].
Proof.
  destruct code as [| b | z | s]; try (simpl; auto 8).
  change _VALUE_TO_STATE_MAP with
    [ ("NORMAL", RUNNING);
      ("PENDING_ADD", PENDING);
      ("PENDING_CHANGE", PENDING);
      ("PENDING_DELETE", PENDING);
      ("FAILED_ADD", ERROR);
      ("FAILED_CHANGE", ERROR);
      ("FAILED_DELETE", ERROR);
      ("REQUIRES_SUPPORT", ERROR) ].
  unfold py_get, dict_get, key_eqb, string_key.
  repeat match goal with
         | |- context [String.eqb ?k s] => destruct (String.eqb k s)
         end; simpl; auto 8.
Qed.

(** X4. Whatever element it was decoded from, a balancer that
    [_to_balancer] returns is RUNNING, PENDING, ERROR or UNKNOWN - never
    DELETED - and its [extra] has exactly the keys pool_id and
    network_domain_id, so that [extra['pool_id']] and
    [extra['network_domain_id']] never raise KeyError on it. *)
Theorem decoded_balancer_invariants :
  forall (l : element) (lb : LoadBalancer.t),
  _to_balancer l = Return lb ->
  In (LoadBalancer.state lb) [RUNNING; PENDING; ERROR; UNKNOWN] /\
  LoadBalancer.state lb <> DELETED /\
  map fst (LoadBalancer.extra lb) = ["pool_id"; "network_domain_id"] /\
  (exists pool,
      elem_find l (fixxpath "pool" TYPES_URN) = Some pool /\
      subscript (LoadBalancer.extra lb) "pool_id"
      = Return (elem_get pool "id")) /\
  subscript (LoadBalancer.extra lb) "network_domain_id"
  = Return (findtext l "networkDomainId" TYPES_URN).
Proof.
  intros l lb E. unfold _to_balancer in E.
  destruct (elem_find l (fixxpath "pool" TYPES_URN)) as [pool | ];
    [ | discriminate E ].
  inversion E. subst lb. clear E. cbn [LoadBalancer.state LoadBalancer.extra].
  pose proof (state_in_range (findtext l "state" TYPES_URN)) as Hrange.
  split; [exact Hrange | ].
  split.
  { intros Hd. rewrite Hd in Hrange. simpl in Hrange.
    repeat (destruct Hrange as [Hrange | Hrange]; [discriminate Hrange | ]).
    exact Hrange. }
  split; [reflexivity | ].
  split; [exists pool; split; reflexivity | reflexivity].
Qed.

(** *** Members of a balancer *)

Lemma balancer_list_members_run (balancer : LoadBalancer.t) (pool_id : pyval)
  (net : transport) (log : list request) :
  subscript (LoadBalancer.extra balancer) "pool_id" = Return pool_id ->
  let req :=
    get_request ("networkDomainVip/poolMember?poolId=" ++ py_str pool_id) in
  balancer_list_members balancer net log =
  (match net log req with
   | Return document =>
       match _to_members document with
       | Return pool_members =>
           Return (map (fun pool_member =>
                          MemberInit.mk
                            (DimensionDataPoolMember.id pool_member)
                            (DimensionDataPoolMember.ip_address pool_member)
                            (DimensionDataPoolMember.port pool_member)
                            balancer PNone)
                       pool_members)
       | Raise e => Raise e
       end
   | Raise e => Raise e
   end, (log ++ [req])%list).
Proof.
  intros Hsub req. subst req.
  unfold balancer_list_members, ex_get_pool_members, bind, lift,
    request_with_orgId_api_2, ret, get_request.
  rewrite Hsub.
  destruct (net log _) as [document | e]; [ | reflexivity ].
  destruct (_to_members document); reflexivity.
Qed.

Lemma well_formed_member_decodes (child : element) :
  well_formed_member child -> returns (_to_member child) = true.
Proof.
  intros (node & p & s & z & Hnode & Hport & Htext & Hint).
  rewrite (to_member_run child node p s Hnode Hport Htext), Hint.
  reflexivity.
Qed.

Lemma to_member_inv (child : element) (pm : DimensionDataPoolMember.t) :
  _to_member child = Return pm ->
  exists node z,
    elem_find child (fixxpath "node" TYPES_URN) = Some node /\
    py_int int_max_str_digits unicode_int
           (findtext child "port" TYPES_URN) = Return z /\
    pm = DimensionDataPoolMember.mk
           (elem_get child "id") (elem_get node "name")
           (findtext child "state" TYPES_URN)
           (elem_get node "ipAddress") (PInt z).
Proof.
  unfold _to_member.
  destruct (elem_find child (fixxpath "node" TYPES_URN)) as [node | ];
    [ | discriminate ].
  cbv zeta.
  destruct (py_int int_max_str_digits unicode_int
                   (findtext child "port" TYPES_URN)) as [z | e];
    [ | discriminate ].
  intros E. inversion E. exists node, z. repeat split.
Qed.

(** X5. A balancer decoded by [_to_balancer] can always be asked for its
    members: [balancer_list_members] gets past the lookup of
    [extra['pool_id']] and makes its one request, a GET for the pool members
    of the id attribute of the listener's pool child; when that child has
    no id attribute the request asks for poolId=None. *)
Theorem list_members_of_decoded_balancer :
  forall (l : element) (lb : LoadBalancer.t) (net : transport)
         (log : list request),
  _to_balancer l = Return lb ->
  exists pool,
    elem_find l (fixxpath "pool" TYPES_URN) = Some pool /\
    snd (balancer_list_members lb net log) =
      (log ++ [get_request ("networkDomainVip/poolMember?poolId="
                              ++ py_str (elem_get pool "id"))])%list /\
    (dict_get (attrib pool) "id" = None ->
     snd (balancer_list_members lb net log) =
       (log ++ [get_request "networkDomainVip/poolMember?poolId=None"])%list).
Proof.
  intros l lb net log E. unfold _to_balancer in E.
  destruct (elem_find l (fixxpath "pool" TYPES_URN)) as [pool | ];
    [ | discriminate E ].
  inversion E. subst lb. clear E.
  exists pool. split; [reflexivity | ].
  match goal with
  | |- context [balancer_list_members ?b net log] =>
      pose proof (balancer_list_members_run b (elem_get pool "id") net log
                    eq_refl) as Hrun
  end.
  cbv zeta in Hrun. rewrite Hrun. cbn [snd].
  split; [reflexivity | ].
  intros Hid. unfold elem_get. rewrite Hid. reflexivity.
Qed.

(** X6. On a balancer whose [extra] has no pool_id key,
    [balancer_list_members] raises KeyError before it makes any request. *)
Theorem list_members_without_pool_id :
  forall (balancer : LoadBalancer.t) (net : transport) (log : list request),
  dict_get (LoadBalancer.extra balancer) "pool_id" = None ->
  balancer_list_members balancer net log = (Raise (KeyError "pool_id"), log).
Proof.
  intros balancer net log Hnone.
  unfold balancer_list_members, bind, lift, subscript. rewrite Hnone.
  reflexivity.
Qed.

(** X7. When the pool-member lookup is answered with a document whose
    poolMember children all have a node child and an integer port text,
    [balancer_list_members] returns one member per such child, in document
    order: its id is the pool member's id attribute (not the node's), its
    ip the node's ipAddress attribute, its port the integer of the port
    text, its balancer the balancer asked about and its extra [None]. *)
Theorem list_members_in_order :
  forall (balancer : LoadBalancer.t) (pool_id : pyval) (net : transport)
         (log : list request) (document : element),
  let req :=
    get_request ("networkDomainVip/poolMember?poolId=" ++ py_str pool_id) in
  subscript (LoadBalancer.extra balancer) "pool_id" = Return pool_id ->
  net log req = Return document ->
  (forall child, In child (pool_members_of document) ->
                 well_formed_member child) ->
  exists members,
    balancer_list_members balancer net log
    = (Return members, (log ++ [req])%list) /\
    Forall2 (member_of balancer) (pool_members_of document) members.
Proof.
  intros balancer pool_id net log document req Hsub Hnet Hwf.
  pose proof (balancer_list_members_run balancer pool_id net log Hsub) as Hrun.
  cbv zeta in Hrun. fold req in Hrun. rewrite Hnet in Hrun.
  unfold _to_members in Hrun. fold (pool_members_of document) in Hrun.
  destruct (map_result_all _to_member (pool_members_of document))
    as (pms & E).
  { intros child Hin. apply well_formed_member_decodes. exact (Hwf child Hin). }
  rewrite E in Hrun. eexists. split; [exact Hrun | ].
  apply map_result_Forall2 in E.
  clear Hrun Hwf. induction E as [| child pm rest pms Hpm _ IH];
    [constructor | ].
  cbn [map]. constructor; [ | exact IH ].
  destruct (to_member_inv child pm Hpm) as (node & z & Hnode & Hint & ->).
  exists node. cbn.
  split; [exact Hnode | ].
  split; [reflexivity | ].
  split; [reflexivity | ].
  split; [exists z; split; [exact Hint | reflexivity] | ].
  split; reflexivity.
Qed.

(** X8. Answered with an element that has no node child,
    [ex_get_pool_member] raises AttributeError, whatever its port child
    says; with a node child but no port child it raises TypeError; with a
    port child that has no text it raises ValueError.  In each case the one
    GET has been made. *)
Theorem get_pool_member_decode_errors :
  forall (pool_member_id : pyval) (net : transport) (log : list request)
         (document : element),
  let req :=
    get_request ("networkDomainVip/poolMember/" ++ py_str pool_member_id) in
  net log req = Return document ->
  (elem_find document (fixxpath "node" TYPES_URN) = None ->
   ex_get_pool_member pool_member_id net log
   = (Raise AttributeError, (log ++ [req])%list)) /\
  (forall node,
      elem_find document (fixxpath "node" TYPES_URN) = Some node ->
      elem_find document (fixxpath "port" TYPES_URN) = None ->
      ex_get_pool_member pool_member_id net log
      = (Raise TypeError, (log ++ [req])%list)) /\
  (forall node p,
      elem_find document (fixxpath "node" TYPES_URN) = Some node ->
      elem_find document (fixxpath "port" TYPES_URN) = Some p ->
      text p = PNone ->
      ex_get_pool_member pool_member_id net log
      = (Raise ValueError, (log ++ [req])%list)).
Proof.
  intros pool_member_id net log document req Hnet. subst req.
  unfold ex_get_pool_member, get_request in *.
  rewrite run_request_lift, Hnet.
  split; [ | split ].
  - intros Hnode. unfold _to_member. rewrite Hnode. reflexivity.
  - intros node Hnode Hport.
    assert (Hft : findtext document "port" TYPES_URN = PNone)
      by (unfold findtext, elem_findtext; rewrite Hport; reflexivity).
    unfold _to_member. rewrite Hnode. cbv zeta. rewrite Hft. reflexivity.
  - intros node p Hnode Hport Htext.
    assert (Hft : findtext document "port" TYPES_URN = PStr "")
      by (unfold findtext, elem_findtext; rewrite Hport, Htext; reflexivity).
    unfold _to_member. rewrite Hnode. cbv zeta. rewrite Hft. reflexivity.
Qed.

(** X9. One poolMember child that does not decode spoils the whole member
    list: [balancer_list_members] raises the exception of the first such
    child and returns no member, however many children before and after it
    are well formed. *)
Theorem list_members_all_or_nothing :
  forall (balancer : LoadBalancer.t) (pool_id : pyval) (net : transport)
         (log : list request) (document : element)
         (pre post : list element) (bad : element) (e : exn),
  let req :=
    get_request ("networkDomainVip/poolMember?poolId=" ++ py_str pool_id) in
  subscript (LoadBalancer.extra balancer) "pool_id" = Return pool_id ->
  net log req = Return document ->
  pool_members_of document = (pre ++ bad :: post)%list ->
  (forall child, In child pre -> well_formed_member child) ->
  _to_member bad = Raise e ->
  balancer_list_members balancer net log = (Raise e, (log ++ [req])%list).
Proof.
  intros balancer pool_id net log document pre post bad e req
         Hsub Hnet Hsplit Hpre Hbad.
  pose proof (balancer_list_members_run balancer pool_id net log Hsub) as Hrun.
  cbv zeta in Hrun. fold req in Hrun. rewrite Hnet in Hrun.
  unfold _to_members in Hrun. fold (pool_members_of document) in Hrun.
  rewrite Hsplit in Hrun.
  rewrite (map_result_first_failure _to_member pre post bad e) in Hrun.
  - exact Hrun.
  - intros child Hin. apply well_formed_member_decodes. exact (Hpre child Hin).
  - exact Hbad.
Qed.

(** X10. [get_balancer] and [list_balancers] agree: when the single lookup
    is answered with an element that is also a virtualListener child of the
    collection, the balancer [get_balancer] returns is among those
    [list_balancers] returns.  The id asked for only shapes the path of the
    request; the result is decoded from the answer. *)
Theorem get_balancer_among_listed :
  forall (balancer_id : pyval) (net net' : transport)
         (log log' : list request) (document l : element)
         (lbs : list LoadBalancer.t),
  net log (get_request "networkDomainVip/virtualListener") = Return document ->
  In l (listeners_of document) ->
  fst (list_balancers net log) = Return lbs ->
  net' log' (get_request ("networkDomainVip/virtualListener/"
                            ++ py_str balancer_id)) = Return l ->
  exists lb,
    get_balancer balancer_id net' log'
    = (Return lb,
       (log' ++ [get_request ("networkDomainVip/virtualListener/"
                                ++ py_str balancer_id)])%list) /\
    In lb lbs /\
    LoadBalancer.id lb = elem_get l "id".
Proof.
  intros balancer_id net net' log log' document l lbs Hnet Hin Hlist Hnet'.
  unfold list_balancers, get_request in *.
  rewrite run_request_lift, Hnet in Hlist. cbn [fst] in Hlist.
  unfold _to_balancers in Hlist. fold (listeners_of document) in Hlist.
  apply map_result_Forall2 in Hlist.
  assert (Hlb : exists lb, _to_balancer l = Return lb /\ In lb lbs).
  { clear Hnet Hnet'. induction Hlist as [| x b xs bs Hxb _ IH];
      [contradiction | ].
    destruct Hin as [<- | Hin].
    - exists b. split; [exact Hxb | left; reflexivity].
    - destruct (IH Hin) as (lb & Hlb & Hmem).
      exists lb. split; [exact Hlb | right; exact Hmem]. }
  destruct Hlb as (lb & Hlb & Hmem).
  exists lb. unfold get_balancer. rewrite run_request_lift, Hnet', Hlb.
  split; [reflexivity | ].
  split; [exact Hmem | ].
  destruct (to_balancer_inv l lb Hlb) as (_ & _ & Hid & _). exact Hid.
Qed.

(** *** Payloads, pools and construction *)

(** X11. What a create operation does before it looks at an answer is
    decided by the scope and its arguments.  Where [ET] is unbound, as in
    the module itself, it raises NameError.  Where [ET] is bound it raises
    TypeError, without a request, if the value of some field is neither a
    string nor falsy; otherwise it makes exactly one request, the POST of a
    root element that carries only the xmlns attribute, with exactly the
    listed children, in this order, whose texts are the arguments as
    passed.  The [protocol] argument of [ex_create_virtual_listener] is
    not among the fields, and the operation is the same for any two
    protocols. *)
Theorem create_payloads :
  forall (g : globals)
         (nd name ip descr limit rate method action ramp pool_id node_id port
            ty proto preservation : pyval),
  create_outcome g (ex_create_node g nd name ip descr limit rate)
    "networkDomainVip/createNode" "createNode"
    [ ("networkDomainId", nd); ("description", descr); ("name", name);
      ("ipv4Address", ip); ("connectionLimit", limit);
      ("connectionRateLimit", rate) ] /\
  create_outcome g (ex_create_pool g nd name method descr action ramp)
    "networkDomainVip/createPool" "createPool"
    [ ("networkDomainId", nd); ("description", descr); ("name", name);
      ("loadBalancerMethod", method); ("serviceDownAction", action);
      ("slowRampTime", ramp) ] /\
  create_outcome g (ex_create_pool_member g pool_id node_id port)
    "networkDomainVip/addPoolMember" "addPoolMember"
    [ ("poolId", pool_id); ("nodeId", node_id); ("port", port) ] /\
  create_outcome g
    (ex_create_virtual_listener g nd name descr port ty proto limit rate
                                preservation)
    "networkDomainVip/createVirtualListener" "createVirtualListener"
    [ ("networkDomainId", nd); ("description", descr); ("name", name);
      ("port", port); ("type", ty); ("connectionLimit", limit);
      ("connectionRateLimit", rate);
      ("sourcePortPreservation", preservation) ] /\
  (forall root flds,
      renderable (payload root flds)
      = forallb (fun f => text_ok (snd f)) flds) /\
  (forall proto',
      ex_create_virtual_listener g nd name descr port ty proto' limit rate
                                 preservation =
      ex_create_virtual_listener g nd name descr port ty proto limit rate
                                 preservation).
Proof.
  intros.
  split; [ | split; [ | split; [ | split; [ | split ] ] ] ].
  - intros net log. rewrite ex_create_node_run.
    destruct (g_ET g); [ | reflexivity ]. cbv zeta.
    destruct (renderable _); reflexivity.
  - intros net log. rewrite ex_create_pool_run.
    destruct (g_ET g); [ | reflexivity ]. cbv zeta.
    destruct (renderable _); reflexivity.
  - intros net log. rewrite ex_create_pool_member_run.
    destruct (g_ET g); [ | reflexivity ]. cbv zeta.
    destruct (renderable _); reflexivity.
  - intros net log. rewrite ex_create_virtual_listener_run.
    destruct (g_ET g); [ | reflexivity ]. cbv zeta.
    destruct (renderable _); reflexivity.
  - exact renderable_payload.
  - reflexivity.
Qed.

(** X12. Decoding pools never fails: answered with any document,
    [ex_get_pools] returns one pool per pool child, in document order, and
    [ex_get_pool] returns the pool of the answered element itself; a child
    the element lacks gives [None], and the status is the vendor's state
    code as it stands, not a translated state. *)
Theorem get_pools_total :
  forall (pool_id : pyval) (net : transport) (log : list request)
         (document : element),
  (net log (get_request "networkDomainVip/pool") = Return document ->
   exists pools,
     ex_get_pools net log
     = (Return pools,
        (log ++ [get_request "networkDomainVip/pool"])%list) /\
     Forall2 pool_of (pools_of document) pools) /\
  (net log (get_request ("networkDomainVip/pool/" ++ py_str pool_id))
   = Return document ->
   exists pool,
     ex_get_pool pool_id net log
     = (Return pool,
        (log ++ [get_request ("networkDomainVip/pool/"
                                ++ py_str pool_id)])%list) /\
     pool_of document pool /\
     (elem_find document (fixxpath "state" TYPES_URN) = None ->
      DimensionDataPool.status pool = PNone)).
Proof.
  intros pool_id net log document. split; intros Hnet.
  - unfold ex_get_pools, get_request in *.
    rewrite run_request_then, Hnet.
    eexists. split; [reflexivity | ].
    unfold _to_pools. fold (pools_of document).
    induction (pools_of document) as [| p rest IH]; cbn [map];
      constructor; [repeat split | exact IH].
  - unfold ex_get_pool, get_request in *.
    rewrite run_request_then, Hnet.
    eexists. split; [reflexivity | ].
    split; [repeat split | ].
    intros Hstate. cbn [_to_pool DimensionDataPool.status].
    unfold findtext, elem_findtext. rewrite Hstate. reflexivity.
Qed.

Lemma key_eqb_string (a b : string) : key_eqb a b = String.eqb a b.
Proof. reflexivity. Qed.

Lemma dict_get_set_same {V} (d : dict string V) (k : string) (v : V) :
  dict_get (dict_set d k v) k = Some v.
Proof.
  induction d as [| [k' v'] rest IH]; simpl.
  - rewrite key_eqb_string, String.eqb_refl. reflexivity.
  - destruct (key_eqb k' k) eqn:E; simpl; rewrite E; [reflexivity | exact IH].
Qed.

Lemma dict_get_set_other {V} (d : dict string V) (k k' : string) (v : V) :
  k' <> k -> dict_get (dict_set d k v) k' = dict_get d k'.
Proof.
  intros Hne. induction d as [| [k0 v0] rest IH]; simpl.
  - rewrite key_eqb_string.
    destruct (String.eqb_spec k k'); [congruence | reflexivity].
  - rewrite !key_eqb_string.
    destruct (String.eqb_spec k0 k) as [-> | Hk0]; simpl;
      rewrite !key_eqb_string.
    + destruct (String.eqb_spec k k'); [congruence | reflexivity].
    + destruct (String.eqb_spec k0 k'); [reflexivity | exact IH].
Qed.

Lemma dict_set_keys {V} (d : dict string V) (k : string) (v : V) :
  dict_get d k <> None -> map fst (dict_set d k v) = map fst d.
Proof.
  induction d as [| [k0 v0] rest IH]; simpl; [congruence | ].
  destruct (key_eqb k0 k) eqn:E; simpl; [reflexivity | ].
  intros H. rewrite (IH H). reflexivity.
Qed.

(** X13. Constructing the driver with a region that is not a key of
    [API_ENDPOINTS] raises ValueError.  With a region that is one, the
    keyword arguments handed to the connection afterwards have that
    region's endpoint under 'region', in place of whatever the base class
    had put there, and every other keyword argument as the base class gave
    it. *)
Theorem region_selection :
  forall (object : Type) (API_ENDPOINTS kwargs : dict string object)
         (region : string),
  (dict_get API_ENDPOINTS region = None ->
   __init__ API_ENDPOINTS region = Raise ValueError) /\
  (forall selected,
      dict_get API_ENDPOINTS region = Some selected ->
      __init__ API_ENDPOINTS region = Return selected /\
      dict_get (_ex_connection_class_kwargs selected kwargs) "region"
      = Some selected /\
      (forall key,
          key <> "region" ->
          dict_get (_ex_connection_class_kwargs selected kwargs) key
          = dict_get kwargs key) /\
      (dict_get kwargs "region" <> None ->
       map fst (_ex_connection_class_kwargs selected kwargs)
       = map fst kwargs)).
Proof.
  intros object API_ENDPOINTS kwargs region. split.
  - intros Hnone. unfold __init__. rewrite Hnone. reflexivity.
  - intros selected Hsome. unfold __init__, _ex_connection_class_kwargs.
    rewrite Hsome.
    split; [reflexivity | ].
    split; [apply dict_get_set_same | ].
    split; [intros key Hkey; apply dict_get_set_other; exact Hkey | ].
    apply dict_set_keys.
Qed.

End Driver.

(** ** Instances *)

Example int_of_string_examples :
  int_of_string default_max_str_digits ascii_only "8080" = Some 8080 /\
  int_of_string default_max_str_digits ascii_only "0080" = Some 80 /\
  int_of_string default_max_str_digits ascii_only " 42 " = Some 42 /\
  int_of_string default_max_str_digits ascii_only
      (String (ascii_of_nat 11) "42") = Some 42 /\
  int_of_string default_max_str_digits ascii_only "-7" = Some (-7) /\
  int_of_string default_max_str_digits ascii_only "8_0" = Some 80 /\
  int_of_string default_max_str_digits ascii_only "" = None /\
  int_of_string default_max_str_digits ascii_only "80a" = None /\
  int_of_string default_max_str_digits ascii_only "8.0" = None /\
  int_of_string default_max_str_digits ascii_only "_8" = None /\
  int_of_string default_max_str_digits ascii_only "+ 5" = None /\
  int_of_string default_max_str_digits ascii_only
      (String (ascii_of_nat 28) "80") = None.
Proof. repeat split. Qed.

(** A numeral of 4301 digits is refused under the limit an interpreter
    starts with and read where the limit is lifted. *)
Example int_digit_limit :
  let ones (n : nat) := string_of_list_ascii (repeat "1"%char n) in
  int_of_string default_max_str_digits ascii_only (ones 4301%nat) = None /\
  int_of_string default_max_str_digits ascii_only (ones 4300%nat) <> None /\
  int_of_string 0 ascii_only (ones 4301%nat) <> None.
Proof. vm_compute. repeat split; discriminate. Qed.

Lemma algorithm_maps_inverse_witness :
  dict_get _ALGORITHM_TO_VALUE_MAP ROUND_ROBIN = Some "ROUND_ROBIN" /\
  dict_get _VALUE_TO_ALGORITHM_MAP "ROUND_ROBIN" = Some ROUND_ROBIN.
Proof.
  split; [reflexivity | ].
  apply (proj1 (algorithm_maps_inverse ROUND_ROBIN "ROUND_ROBIN")).
  reflexivity.
Defined.

Lemma state_translation_witness :
  exists lb,
    _to_balancer types_urn (listener_doc "PENDING_CHANGE") = Return lb /\
    LoadBalancer.state lb = PENDING.
Proof.
  destruct (state_translation types_urn)
    as (_ & _ & _ & _ & _ & _ & _ & _ & _ & Hdecode).
  destruct (Hdecode (listener_doc "PENDING_CHANGE")
                    (Element (fixxpath "pool" types_urn)
                             [("id", PStr "P1")] PNone [])
                    eq_refl) as (lb & Hlb & Hstate).
  exists lb. split; [exact Hlb | ].
  rewrite Hstate. reflexivity.
Defined.

Lemma balancer_attach_member_never_returns_witness :
  balancer_attach_member types_urn server_ns module_globals lb1 web1
    (answering (info_response types_urn [("nodeId", "123")])) []
  = (Raise (NameError "ET"), []).
Proof.
  destruct (balancer_attach_member_never_returns types_urn server_ns
              module_globals lb1 web1
              (answering (info_response types_urn [("nodeId", "123")])) [])
    as (_ & _ & Hrun).
  exact (Hrun (PStr "ND1") eq_refl).
Defined.

Lemma to_member_port_integer_witness :
  (exists m,
      _to_member types_urn default_max_str_digits ascii_only
          (pool_member_doc "8080") = Return m /\
      DimensionDataPoolMember.port m = PInt 8080) /\
  _to_member types_urn default_max_str_digits ascii_only
      (pool_member_doc "80a") = Raise ValueError.
Proof.
  split.
  - destruct (to_member_port_integer types_urn default_max_str_digits ascii_only
                (pool_member_doc "8080") node_elem (port_elem "8080")
                eq_refl eq_refl) as (_ & Hgood & _).
    refine (Hgood "8080" (D8 (D0 (D8 (D0 Nil)))) eq_refl eq_refl _ _).
    + discriminate.
    + right. vm_compute. discriminate.
  - destruct (to_member_port_integer types_urn default_max_str_digits ascii_only
                (pool_member_doc "80a") node_elem (port_elem "80a")
                eq_refl eq_refl) as (_ & _ & Hbad & _).
    exact (Hbad "80a" eq_refl eq_refl).
Defined.

(** A pool-member element whose port child holds 8080 but which has no
    node child does not decode to a member. *)
Lemma to_member_without_node :
  _to_member types_urn default_max_str_digits ascii_only
      nodeless_member = Raise AttributeError /\
  ~ (exists m,
        _to_member types_urn default_max_str_digits ascii_only
            nodeless_member = Return m /\
        DimensionDataPoolMember.port m = PInt 8080).
Proof.
  split; [reflexivity | ].
  intros (m & Hm & _). discriminate Hm.
Qed.

(** [create_balancer] in the module's own scope, and in the scope in which
    all three names are bound. *)
Example create_balancer_actual_trace :
  create_balancer types_urn server_ns module_globals (PStr "web")
    (PStr "80") (PStr "http") ROUND_ROBIN [web1; web2]
    (answering (info_response types_urn [])) []
  = (Raise (NameError "_ALGORITHM_TO_VALUE_MAP"), []).
Proof. reflexivity. Qed.

Example create_balancer_bound_trace :
  create_balancer types_urn server_ns intended_globals (PStr "web")
    (PStr "80") (PStr "http") ROUND_ROBIN [web1; web2]
    (answering (info_response types_urn [])) []
  = (Raise TypeError, []).
Proof. reflexivity. Qed.

(** Where [ET] is bound and every field is a string, [ex_create_node]
    gets as far as the answer: the first info entry makes the read of
    [info.name] raise, and only an answer without entries gives [None]. *)
Example ex_create_node_bound_traces :
  fst (ex_create_node types_urn server_ns intended_globals (PStr "ND1")
         (PStr "web1") (PStr "10.0.0.11") (PStr "") (PStr "25000")
         (PStr "2000")
         (answering (info_response types_urn
                       [("nodeId", "123"); ("other", "x")])) [])
  = Raise AttributeError /\
  fst (ex_create_node types_urn server_ns intended_globals (PStr "ND1")
         (PStr "web1") (PStr "10.0.0.11") (PStr "") (PStr "25000")
         (PStr "2000") (answering (info_response types_urn [])) [])
  = Return PNone.
Proof. split; reflexivity. Qed.

(** ** Instances of the further properties *)

Lemma balancer_detach_member_outcome_witness :
  balancer_detach_member server_ns module_globals lb1 web1
    (answering (info_response types_urn [])) []
  = (Raise (NameError "ET"), []).
Proof.
  destruct (balancer_detach_member_outcome server_ns module_globals lb1 web1
              (answering (info_response types_urn [])) [])
    as (Hunbound & _).
  exact (Hunbound eq_refl).
Defined.

Lemma list_balancers_in_order_witness :
  exists lbs,
    list_balancers types_urn (answering listeners_doc) []
    = (Return lbs, [get_request "networkDomainVip/virtualListener"]) /\
    List.length lbs = 2%nat.
Proof.
  destruct (list_balancers_in_order types_urn (answering listeners_doc) []
              listeners_doc eq_refl) as (lbs & Hrun & Hall).
  - intros l Hin. vm_compute in Hin.
    destruct Hin as [<- | [<- | []]]; vm_compute; discriminate.
  - exists lbs. split; [exact Hrun | ].
    apply Forall2_length in Hall. rewrite <- Hall. reflexivity.
Defined.

Lemma list_balancers_all_or_nothing_witness :
  list_balancers types_urn (answering broken_listeners_doc) []
  = (Raise AttributeError, [get_request "networkDomainVip/virtualListener"]).
Proof.
  apply (list_balancers_all_or_nothing types_urn
           (answering broken_listeners_doc) [] broken_listeners_doc
           bare_listener eq_refl).
  - vm_compute. right. left. reflexivity.
  - reflexivity.
Defined.

Lemma decoded_balancer_invariants_witness :
  exists lb,
    _to_balancer types_urn (listener_doc "NORMAL") = Return lb /\
    LoadBalancer.state lb <> DELETED /\
    subscript (LoadBalancer.extra lb) "network_domain_id"
    = Return (PStr "ND1").
Proof.
  assert (E : exists lb,
             _to_balancer types_urn (listener_doc "NORMAL") = Return lb)
    by (eexists; reflexivity).
  destruct E as (lb & E). exists lb. split; [exact E | ].
  destruct (decoded_balancer_invariants types_urn _ lb E)
    as (_ & Hstate & _ & _ & Hsub).
  split; [exact Hstate | ]. rewrite Hsub. reflexivity.
Defined.

Lemma list_members_of_decoded_balancer_witness :
  exists lb,
    _to_balancer types_urn (listener_doc "NORMAL") = Return lb /\
    snd (balancer_list_members types_urn default_max_str_digits ascii_only lb
           (failing (OtherError "connection refused")) [])
    = [get_request "networkDomainVip/poolMember?poolId=P1"].
Proof.
  assert (E : exists lb,
             _to_balancer types_urn (listener_doc "NORMAL") = Return lb)
    by (eexists; reflexivity).
  destruct E as (lb & E). exists lb. split; [exact E | ].
  destruct (list_members_of_decoded_balancer
        types_urn default_max_str_digits ascii_only
      _ lb
              (failing (OtherError "connection refused")) [] E)
    as (pool & Hpool & Hlog & _).
  vm_compute in Hpool. inversion Hpool. subst pool.
  rewrite Hlog. reflexivity.
Defined.

Lemma list_members_without_pool_id_witness :
  balancer_list_members types_urn default_max_str_digits ascii_only
      lb_without_extra
    (answering (members_doc ["8080"])) []
  = (Raise (KeyError "pool_id"), []).
Proof.
  apply (list_members_without_pool_id
        types_urn default_max_str_digits ascii_only
      lb_without_extra
           (answering (members_doc ["8080"])) []).
  reflexivity.
Defined.

Lemma list_members_in_order_witness :
  exists members,
    balancer_list_members types_urn default_max_str_digits ascii_only lb1
      (answering (members_doc ["8080"; "8081"])) []
    = (Return members,
       [get_request "networkDomainVip/poolMember?poolId=P1"]) /\
    map MemberInit.port members = [PInt 8080; PInt 8081] /\
    map MemberInit.ip members = [PStr "10.0.0.11"; PStr "10.0.0.11"].
Proof.
  destruct (list_members_in_order types_urn default_max_str_digits ascii_only
      lb1 (PStr "P1")
              (answering (members_doc ["8080"; "8081"])) []
              (members_doc ["8080"; "8081"]) eq_refl eq_refl)
    as (members & Hrun & Hall).
  - intros child Hin. vm_compute in Hin.
    destruct Hin as [<- | [<- | []]].
    + exists node_elem, (port_elem "8080"), "8080", 8080.
      repeat split.
    + exists node_elem, (port_elem "8081"), "8081", 8081.
      repeat split.
  - exists members. split; [exact Hrun | ].
    assert (Hv : balancer_list_members
          types_urn default_max_str_digits ascii_only
        lb1
                   (answering (members_doc ["8080"; "8081"])) []
                 = (Return
                      [MemberInit.mk (PStr "PM1") (PStr "10.0.0.11")
                         (PInt 8080) lb1 PNone;
                       MemberInit.mk (PStr "PM1") (PStr "10.0.0.11")
                         (PInt 8081) lb1 PNone],
                    [get_request "networkDomainVip/poolMember?poolId=P1"]))
      by reflexivity.
    rewrite Hv in Hrun. inversion Hrun. split; reflexivity.
Defined.

Lemma get_pool_member_decode_errors_witness :
  ex_get_pool_member types_urn default_max_str_digits ascii_only (PStr "PM9")
    (answering nodeless_member) []
  = (Raise AttributeError, [get_request "networkDomainVip/poolMember/PM9"]).
Proof.
  destruct (get_pool_member_decode_errors
        types_urn default_max_str_digits ascii_only
      (PStr "PM9")
              (answering nodeless_member) [] nodeless_member eq_refl)
    as (Hnode & _).
  exact (Hnode eq_refl).
Defined.

Lemma list_members_all_or_nothing_witness :
  balancer_list_members types_urn default_max_str_digits ascii_only lb1
    (answering (members_doc ["8080"; "80a"; "8081"])) []
  = (Raise ValueError,
     [get_request "networkDomainVip/poolMember?poolId=P1"]).
Proof.
  apply (list_members_all_or_nothing types_urn default_max_str_digits ascii_only
      lb1 (PStr "P1")
           (answering (members_doc ["8080"; "80a"; "8081"])) []
           (members_doc ["8080"; "80a"; "8081"])
           [pool_member_doc "8080"] [pool_member_doc "8081"]
           (pool_member_doc "80a") ValueError eq_refl eq_refl eq_refl).
  - intros child [<- | []].
    exists node_elem, (port_elem "8080"), "8080", 8080. repeat split.
  - reflexivity.
Defined.

Lemma get_balancer_among_listed_witness :
  exists lb lbs,
    fst (list_balancers types_urn (answering listeners_doc) []) = Return lbs /\
    fst (get_balancer types_urn (PStr "LB1")
           (answering (listener_doc "FAILED_ADD")) []) = Return lb /\
    In lb lbs /\
    LoadBalancer.id lb = PStr "LB1".
Proof.
  assert (E : exists lbs,
             fst (list_balancers types_urn (answering listeners_doc) [])
             = Return lbs) by (eexists; reflexivity).
  destruct E as (lbs & E).
  destruct (get_balancer_among_listed types_urn (PStr "LB1")
              (answering listeners_doc)
              (answering (listener_doc "FAILED_ADD")) [] []
              listeners_doc (listener_doc "FAILED_ADD") lbs eq_refl)
    as (lb & Hrun & Hin & Hid).
  - vm_compute. right. left. reflexivity.
  - exact E.
  - reflexivity.
  - exists lb, lbs. split; [exact E | ].
    rewrite Hrun. split; [reflexivity | ]. split; [exact Hin | ].
    rewrite Hid. reflexivity.
Defined.

Lemma create_payloads_witness :
  ex_create_pool_member types_urn server_ns module_globals (PStr "P1")
    (PStr "N1") (PStr "8080") (answering (info_response types_urn [])) []
  = (Raise (NameError "ET"), []).
Proof.
  destruct (create_payloads types_urn server_ns module_globals
              PNone PNone PNone PNone PNone PNone PNone PNone PNone
              (PStr "P1") (PStr "N1") (PStr "8080") PNone PNone PNone)
    as (_ & _ & Hmember & _).
  exact (Hmember (answering (info_response types_urn [])) []).
Defined.

Lemma get_pools_total_witness :
  exists pools,
    ex_get_pools types_urn (answering pools_doc) []
    = (Return pools, [get_request "networkDomainVip/pool"]) /\
    List.length pools = 2%nat.
Proof.
  destruct (get_pools_total types_urn PNone (answering pools_doc) []
              pools_doc) as (Hall & _).
  destruct (Hall eq_refl) as (pools & Hrun & Hof).
  exists pools. split; [exact Hrun | ].
  apply Forall2_length in Hof. rewrite <- Hof. reflexivity.
Defined.

Lemma region_selection_witness :
  __init__ endpoints "dd-au" = Raise ValueError /\
  dict_get (_ex_connection_class_kwargs "api-eu.dimensiondata.com"
              [("region", "dd-eu"); ("host", "localhost")]) "region"
  = Some "api-eu.dimensiondata.com".
Proof.
  destruct (region_selection string endpoints
              [("region", "dd-eu"); ("host", "localhost")] "dd-au")
    as (Hbad & _).
  destruct (region_selection string endpoints
              [("region", "dd-eu"); ("host", "localhost")] "dd-eu")
    as (_ & Hgood).
  split; [exact (Hbad eq_refl) | ].
  destruct (Hgood "api-eu.dimensiondata.com" eq_refl) as (_ & Hregion & _).
  exact Hregion.
Defined.
